(** * bondlinker: the chat window controller and the push-token bootstrap

    A shallow embedding of [src/lib/firebase.ts] (notification permission
    and FCM token helpers) and of the [ChatWindow] React component (draft,
    typing indicator, send pipeline, read receipt, message grouping),
    followed by the properties established about them.

    Conventions.
    - A JavaScript string is the list of its UTF-16 code units.
    - A [Date] is its time value, an integer number of milliseconds.
    - Objects that React compares by identity ([conversation], [messages])
      carry a reference number; two values are the same object iff the
      reference numbers agree.
    - The component is a state machine.  Its state holds the props, the
      results of the data hooks, the [useState] cells, the browser timer
      table with a clock, the call in flight of [sendMessage], and the
      dependency values of the last commit.  Every event is handled on
      the latest render and is followed by one commit, in which the
      effects whose dependencies changed run.
    - The hooks [useConversation], [useMessages] and [useDebounce] are
      imported by the component but their code is not at hand: what the
      data hooks deliver arrives as [Render] events, and the behaviour of
      [useDebounce] and of the [sendMessage] mutation follows the
      specification. *)

From Stdlib Require Import ZArith NArith Lia Bool Ascii String.
From stdpp Require Import base tactics numbers option list.

(** ** JavaScript strings *)

Module JS.

Definition JSString := list N.

(** Code units of an ASCII literal, for readable examples. *)
Definition lit (s : string) : JSString :=
  List.map N_of_ascii (list_ascii_of_string s).

(** ECMAScript [WhiteSpace] and [LineTerminator] code units, the ones
    [String.prototype.trim] strips. *)
Definition isWhiteSpace (c : N) : bool :=
  ((9 <=? c) && (c <=? 13) || (c =? 32) || (c =? 160) || (c =? 5760)
   || (8192 <=? c) && (c <=? 8202) || (c =? 8232) || (c =? 8233)
   || (c =? 8239) || (c =? 8287) || (c =? 12288) || (c =? 65279))%N.

Fixpoint trimStart (s : JSString) : JSString :=
  match s with
  | [] => []
  | c :: r => if isWhiteSpace c then trimStart r else s
  end.

Definition trimEnd (s : JSString) : JSString :=
  rev (trimStart (rev s)).

Definition trim (s : JSString) : JSString := trimEnd (trimStart s).

(** [!s] for a string [s]: only the empty string is falsy. *)
Definition not_str (s : JSString) : bool :=
  match s with [] => true | _ :: _ => false end.

(** [==] between two strings. *)
Definition str_eq (a b : JSString) : bool := bool_decide (a = b).

End JS.

(** ** src/lib/firebase.ts *)

Module Firebase.
Import JS.

Inductive NotificationPermission := granted | denied | default.

(** A settled promise: fulfilled with a value or rejected with the
    thrown value (kept as its message). *)
Inductive Settled (A : Type) :=
| Fulfilled (a : A)
| Rejected (e : JSString).
Arguments Fulfilled {A} a.
Arguments Rejected {A} e.

(** What the browser and the messaging SDK answer. *)
Record Env := mkEnv {
  Notification_requestPermission : Settled NotificationPermission;
  getToken : Settled JSString
}.

(** A line written with [console.error]: the label and the error. *)
Definition LogLine := (string * JSString)%type.

(** An async function body: the lines it logged and how it settled. *)
Definition Async (A : Type) := (list LogLine * Settled A)%type.

Definition ret {A} (a : A) : Async A := ([], Fulfilled a).

Definition await {A} (p : Settled A) : Async A := ([], p).

Definition bind {A B} (m : Async A) (k : A -> Async B) : Async B :=
  match m with
  | (l, Fulfilled a) => let '(l', r) := k a in (l ++ l', r)
  | (l, Rejected e) => (l, Rejected e)
  end.

Definition try_catch {A} (body : Async A) (handler : JSString -> Async A)
  : Async A :=
  match body with
  | (l, Rejected e) => let '(l', r) := handler e in (l ++ l', r)
  | (l, Fulfilled a) => (l, Fulfilled a)
  end.

Definition console_error (label : string) (e : JSString) : Async unit :=
  ([(label, e)], Fulfilled tt).

Notation "'let!' x ':=' m 'in' k" := (bind m (fun x => k))
  (at level 10, x name, m at level 100, k at level 200).
Notation "'do!' m 'in' k" := (bind m (fun _ => k))
  (at level 10, m at level 100, k at level 200).

(** [null] is [None]. *)
Definition getFCMToken (env : Env) : Async (option JSString) :=
  try_catch
    (let! token := await (getToken env) in
     ret (Some token))
    (fun error =>
       do! console_error "FCM token error:" error in
       ret None).

Definition requestNotificationPermission (env : Env)
  : Async (option JSString) :=
  try_catch
    (let! permission := await (Notification_requestPermission env) in
     match permission with
     | granted => getFCMToken env
     | _ => ret None
     end)
    (fun error =>
       do! console_error "Notification permission error:" error in
       ret None).

End Firebase.

(** ** ChatWindow: message grouping (the props of each MessageBubble) *)

Module Grouping.
Import JS.

Record Message := mkMessage {
  id : JSString;
  senderId : JSString;
  recipientId : JSString;
  createdAt : Z
}.

(** [differenceInSeconds] of date-fns: the difference of the two time
    values in seconds, rounded toward zero. *)
Definition differenceInSeconds_datefns (dateLeft dateRight : Z) : Z :=
  Z.quot (dateLeft - dateRight) 1000.

(** [messages[i]]: [undefined] ([None]) outside the array. *)
Definition at_index (messages : list Message) (i : Z) : option Message :=
  if (i <? 0)%Z then None else messages !! Z.to_nat i.

Record Flags := mkFlags {
  showTimeSeparator : bool;
  continiousTop : bool;
  continiousBottom : bool
}.

Section WithDateLibrary.

(** The date library's [differenceInSeconds dateLeft dateRight]. *)
Variable differenceInSeconds : Z -> Z -> Z.

(** The three prop expressions of lines 175-177.  Reading a field of
    [undefined] throws a TypeError: that is [None]. [&&] evaluates its
    right operand only when the left one is true. *)
Definition showTimeSeparator_expr (messages : list Message)
    (message : Message) (index : Z) : option bool :=
  if (index >? 0)%Z then
    prev ← at_index messages (index - 1);
    Some (differenceInSeconds (createdAt message) (createdAt prev) >? 600)%Z
  else Some false.

Definition continiousTop_expr (messages : list Message)
    (message : Message) (index : Z) : option bool :=
  if (index >? 0)%Z then
    prev ← at_index messages (index - 1);
    if str_eq (recipientId prev) (recipientId message) then
      prev' ← at_index messages (index - 1);
      Some (differenceInSeconds (createdAt message) (createdAt prev') <? 300)%Z
    else Some false
  else Some false.

Definition continiousBottom_expr (messages : list Message)
    (message : Message) (index : Z) : option bool :=
  if (index <? Z.of_nat (length messages) - 1)%Z then
    next ← at_index messages (index + 1);
    if str_eq (recipientId next) (recipientId message) then
      next' ← at_index messages (index + 1);
      Some (differenceInSeconds (createdAt next') (createdAt message) <? 300)%Z
    else Some false
  else Some false.

Definition bubble (messages : list Message) (index : nat)
    (message : Message) : option Flags :=
  a ← showTimeSeparator_expr messages message (Z.of_nat index);
  b ← continiousTop_expr messages message (Z.of_nat index);
  c ← continiousBottom_expr messages message (Z.of_nat index);
  Some (mkFlags a b c).

(** [messages.map((message, index) => <MessageBubble ... />)]:
    [None] if some prop expression throws. *)
Definition bubbles (messages : list Message) : option (list Flags) :=
  mapM (fun props => props) (imap (bubble messages) messages).

End WithDateLibrary.

End Grouping.

(** ** ChatWindow: the component as a state machine *)

Module ChatWindow.
Import JS.
Export Grouping.

Local Open Scope Z_scope.

(** *** Props and the data hooks *)

Record Props := mkProps {
  conversationId : JSString;
  recipientTyping : bool;
  (** [onIsTypingChange] is optional: is it provided? *)
  onIsTypingChange : bool
}.

Record Conversation := mkConversation {
  conversation_ref : nat;
  recipient_name : JSString
}.

Record MessageList := mkMessageList {
  messages_ref : nat;
  items : list Message
}.

(** What [useConversation] and [useMessages] return at a render, apart
    from the two mutations. *)
Record Data := mkData {
  conversation : option Conversation;
  isConversationLoading : bool;
  messages : option MessageList;
  isMessagesLoading : bool
}.

(** *** Browser timers *)

Inductive TimerAction :=
| Expire                      (** [() => setIsTyping(false)], line 93 *)
| Settle (value : bool).      (** the pending update of [useDebounce] *)

Record Timer := mkTimer {
  tid : Z;
  deadline : Z;
  action : TimerAction
}.

(** *** The mutation in flight *)

(** The [onSuccess] closure passed to [mutate] at line 103 refers to the
    [isTypingTimeoutID] of the render in which the form was submitted. *)
Record InFlight := mkInFlight {
  variables : JSString;
  captured_isTypingTimeoutID : Z
}.

(** *** Dependency arrays *)

(** The values the effects' dependency arrays held at the last commit. *)
Record Deps := mkDeps {
  dep_isTyping : bool;
  dep_debouncedTyping : bool;
  dep_conversation : option nat;
  dep_messages : option nat;
  dep_recipientTyping : bool
}.

(** *** State *)

Record State := mkState {
  props : Props;
  data : Data;
  (** [useState] cells, lines 67-69 *)
  newMessage : JSString;
  isTyping : bool;
  isTypingTimeoutID : Z;
  (** [useDebounce(isTyping, 1000)]: its value and the timeout its
      cleanup clears *)
  debouncedTyping : bool;
  debounceHandler : option Z;
  (** [sendMessage]: the call in flight and the last error *)
  sendInFlight : option InFlight;
  sendError : option JSString;
  (** effects already committed; [None] before the first commit *)
  committed : option Deps;
  (** [window.setTimeout] table, next handle, clock in milliseconds *)
  timers : list Timer;
  nextTimerId : Z;
  now : Z
}.

(** What the component does to the outside. *)
Inductive Output :=
| PreventDefault
| TypingChange (value : bool)      (** [onIsTypingChange(value)] *)
| OutboundSend (text : JSString)   (** the send issued by [mutate] *)
| MarkAsRead                       (** [markAsRead.mutate()] *)
| ScrollToBottom (attached : bool).
    (** a call of [scrollToBottom]; [attached] tells whether
        [messagesEndRef.current] was set, that is whether
        [scrollIntoView] ran *)

Definition set_props (p : Props) (s : State) : State :=
  mkState p (data s) (newMessage s) (isTyping s) (isTypingTimeoutID s)
    (debouncedTyping s) (debounceHandler s) (sendInFlight s) (sendError s)
    (committed s) (timers s) (nextTimerId s) (now s).

Definition set_data (d : Data) (s : State) : State :=
  mkState (props s) d (newMessage s) (isTyping s) (isTypingTimeoutID s)
    (debouncedTyping s) (debounceHandler s) (sendInFlight s) (sendError s)
    (committed s) (timers s) (nextTimerId s) (now s).

Definition setNewMessage (v : JSString) (s : State) : State :=
  mkState (props s) (data s) v (isTyping s) (isTypingTimeoutID s)
    (debouncedTyping s) (debounceHandler s) (sendInFlight s) (sendError s)
    (committed s) (timers s) (nextTimerId s) (now s).

Definition setIsTyping (b : bool) (s : State) : State :=
  mkState (props s) (data s) (newMessage s) b (isTypingTimeoutID s)
    (debouncedTyping s) (debounceHandler s) (sendInFlight s) (sendError s)
    (committed s) (timers s) (nextTimerId s) (now s).

Definition setIsTypingTimeoutID (i : Z) (s : State) : State :=
  mkState (props s) (data s) (newMessage s) (isTyping s) i
    (debouncedTyping s) (debounceHandler s) (sendInFlight s) (sendError s)
    (committed s) (timers s) (nextTimerId s) (now s).

Definition setDebouncedValue (b : bool) (s : State) : State :=
  mkState (props s) (data s) (newMessage s) (isTyping s) (isTypingTimeoutID s)
    b (debounceHandler s) (sendInFlight s) (sendError s)
    (committed s) (timers s) (nextTimerId s) (now s).

Definition set_debounceHandler (h : option Z) (s : State) : State :=
  mkState (props s) (data s) (newMessage s) (isTyping s) (isTypingTimeoutID s)
    (debouncedTyping s) h (sendInFlight s) (sendError s)
    (committed s) (timers s) (nextTimerId s) (now s).

Definition set_send (f : option InFlight) (e : option JSString) (s : State)
  : State :=
  mkState (props s) (data s) (newMessage s) (isTyping s) (isTypingTimeoutID s)
    (debouncedTyping s) (debounceHandler s) f e
    (committed s) (timers s) (nextTimerId s) (now s).

Definition set_committed (d : option Deps) (s : State) : State :=
  mkState (props s) (data s) (newMessage s) (isTyping s) (isTypingTimeoutID s)
    (debouncedTyping s) (debounceHandler s) (sendInFlight s) (sendError s)
    d (timers s) (nextTimerId s) (now s).

Definition set_timers (l : list Timer) (n : Z) (s : State) : State :=
  mkState (props s) (data s) (newMessage s) (isTyping s) (isTypingTimeoutID s)
    (debouncedTyping s) (debounceHandler s) (sendInFlight s) (sendError s)
    (committed s) l n (now s).

Definition set_now (t : Z) (s : State) : State :=
  mkState (props s) (data s) (newMessage s) (isTyping s) (isTypingTimeoutID s)
    (debouncedTyping s) (debounceHandler s) (sendInFlight s) (sendError s)
    (committed s) (timers s) (nextTimerId s) t.

(** [window.setTimeout(action, delay)]: returns the new handle. *)
Definition setTimeout (a : TimerAction) (delay : Z) (s : State) : Z * State :=
  (nextTimerId s,
   set_timers (timers s ++ [mkTimer (nextTimerId s) (now s + delay) a])
     (nextTimerId s + 1) s).

(** [clearTimeout(handle)]: an unknown handle is ignored. *)
Definition clearTimeout (handle : Z) (s : State) : State :=
  set_timers (filter (fun tm => tid tm <> handle) (timers s))
    (nextTimerId s) s.

Definition armed (handle : Z) (s : State) : bool :=
  bool_decide (Exists (fun tm => tid tm = handle) (timers s)).

(** [sendMessage.isPending]: a call is in flight (see [mutate]). *)
Definition isPending (s : State) : bool :=
  match sendInFlight s with Some _ => true | None => false end.

(** Is the [<div ref={messagesEndRef}>] of line 186 rendered? *)
Definition endRefAttached (s : State) : bool :=
  negb (isConversationLoading (data s) || isMessagesLoading (data s))
  && match conversation (data s) with Some _ => true | None => false end
  && match messages (data s) with
     | Some m => match items m with [] => false | _ :: _ => true end
     | None => false
     end.

(** [disabled] of the submit button, line 206. *)
Definition submitDisabled (s : State) : bool :=
  isPending s || not_str (trim (newMessage s)).

(** *** Effects *)

Definition current_deps (s : State) : Deps :=
  mkDeps (isTyping s) (debouncedTyping s)
    (conversation_ref <$> conversation (data s))
    (messages_ref <$> messages (data s))
    (recipientTyping (props s)).

(** Did this dependency change since the last commit?  On mount every
    effect runs. *)
Definition changed {A} `{EqDecision A} (sel : Deps -> A) (s : State) : bool :=
  match committed s with
  | None => true
  | Some d => negb (bool_decide (sel d = sel (current_deps s)))
  end.

(** Modelled from the spec: [useDebounce(value, delay)] of
    '@/hooks/use-debounce', which is not part of the sources at hand.
    "Only a value that persists for >= 1s without change is forwarded":
    whenever [value] changes, the pending update is cancelled and a new
    one is scheduled [delay] milliseconds later. *)
Definition useDebounce_effect (s : State) : State :=
  if changed dep_isTyping s then
    let s1 := match debounceHandler s with
              | Some h => clearTimeout h s
              | None => s
              end in
    let '(h, s2) := setTimeout (Settle (isTyping s)) 1000 s1 in
    set_debounceHandler (Some h) s2
  else s.

(** Lines 80-84. *)
Definition typing_effect (s : State) : list Output :=
  if changed dep_debouncedTyping s || changed dep_conversation s then
    if match conversation (data s) with Some _ => false | None => true end
       || negb (debouncedTyping s)
       || not_str (trim (newMessage s))
    then []
    else if onIsTypingChange (props s)
         then [TypingChange (debouncedTyping s)]
         else []
  else [].

(** Lines 113-115. *)
Definition scrollToBottom (s : State) : list Output :=
  [ScrollToBottom (endRefAttached s)].

(** Lines 117-119. *)
Definition scroll_effect (s : State) : list Output :=
  if changed dep_messages s || changed dep_recipientTyping s
  then scrollToBottom s
  else [].

(** Lines 121-125. *)
Definition markAsRead_effect (s : State) : list Output :=
  if changed dep_conversation s then
    match conversation (data s) with
    | Some _ => [MarkAsRead]
    | None => []
    end
  else [].

(** One commit: the effects whose dependencies changed run, in the order
    of their declaration. *)
Definition commit (s : State) : State * list Output :=
  (set_committed (Some (current_deps s)) (useDebounce_effect s),
   typing_effect s ++ scroll_effect s ++ markAsRead_effect s).

(** *** Event handlers *)

(** Lines 86-96. *)
Definition handleInputChange (value : JSString) (s : State) : State :=
  let s1 := setNewMessage value s in
  if not_str value then s1
  else
    let s2 := setIsTyping true s1 in
    let s3 := clearTimeout (isTypingTimeoutID s) s2 in
    let '(h, s4) := setTimeout Expire 5000 s3 in
    setIsTypingTimeoutID h s4.

(** Modelled from the spec: [sendMessage.mutate] of [useConversation]
    ('@/hooks/use-messages'), which is not part of the sources at hand.
    "It transitions the control into pending state ..., issues exactly one
    outbound send"; the callbacks given to [mutate] are kept until the
    call settles. *)
Definition mutate (text : JSString) (captured : Z) (s : State)
  : State * list Output :=
  (set_send (Some (mkInFlight text captured)) None s, [OutboundSend text]).

(** Lines 98-111. *)
Definition handleSendMessage (s : State) : State * list Output :=
  if not_str (trim (newMessage s)) then (s, [PreventDefault])
  else
    let '(s1, o) := mutate (newMessage s) (isTypingTimeoutID s) s in
    (setNewMessage [] s1, PreventDefault :: o).

(** The [onSuccess] closure of lines 104-108. *)
Definition onSuccess (f : InFlight) (s : State) : State * list Output :=
  let s1 := setIsTyping false s in
  let s2 := clearTimeout (captured_isTypingTimeoutID f) s1 in
  (s2, scrollToBottom s2).

Inductive Answer :=
| Ack
| Failed (error : JSString).

(** Modelled from the spec: how the [sendMessage] mutation settles.
    "On success: ..." runs the [onSuccess] closure; "on failure: pending
    state must still clear, and the error is surfaced for external
    reporting": the error is kept on the mutation and nothing is thrown.
    ChatWindow passes no [onError]. *)
Definition settle (r : Answer) (s : State) : State * list Output :=
  match sendInFlight s with
  | None => (s, [])
  | Some f =>
      match r with
      | Ack => onSuccess f (set_send None None s)
      | Failed e => (set_send None (Some e) s, [])
      end
  end.

Definition run_action (a : TimerAction) (s : State) : State :=
  match a with
  | Expire => setIsTyping false s
  | Settle v => setDebouncedValue v s
  end.

(** A timer fires: it leaves the table, the clock is at least its
    deadline, its callback runs. *)
Definition fire (tm : Timer) (s : State) : State :=
  run_action (action tm)
    (set_now (Z.max (now s) (deadline tm)) (clearTimeout (tid tm) s)).

(** *** The event loop *)

Inductive Event :=
| Render (p : Props) (d : Data)
    (** the parent passes props, the data hooks deliver results *)
| InputChange (value : JSString)     (** [onChange] of the input *)
| Submit                             (** the user submits the form *)
| TimerFire (handle : Z)
| SendSettled (r : Answer)
| SendReset.
    (** the hook drops the call in flight; whether and when
        [useConversation] does so is decided outside these sources *)

Definition then_commit (r : State * list Output) : State * list Output :=
  let '(s, o) := r in
  let '(s', o') := commit s in
  (s', o ++ o').

(** The submit handler followed by the render it causes. *)
Definition send (s : State) : State * list Output :=
  then_commit (handleSendMessage s).

Definition step (s : State) (e : Event) : State * list Output :=
  match e with
  | Render p d => commit (set_data d (set_props p s))
  | InputChange v => commit (handleInputChange v s)
  | Submit =>
      if submitDisabled s then (s, [])
      else then_commit (handleSendMessage s)
  | TimerFire h =>
      match List.find (fun tm => bool_decide (tid tm = h)) (timers s) with
      | Some tm => commit (fire tm s)
      | None => (s, [])
      end
  | SendSettled r => then_commit (settle r s)
  | SendReset => commit (set_send None None s)
  end.

Fixpoint run (s : State) (es : list Event) : State * list Output :=
  match es with
  | [] => (s, [])
  | e :: es' =>
      let '(s1, o1) := step s e in
      let '(s2, o2) := run s1 es' in
      (s2, o1 ++ o2)
  end.

(** First render of a fresh instance. *)
Definition initial (p : Props) (d : Data) : State :=
  mkState p d [] false 0 false None None None None [] 1 0.

Definition mount (p : Props) (d : Data) : State * list Output :=
  commit (initial p d).

(** *** Letting time pass *)

(** The timer due by [t] that fires first: the earliest deadline, the
    earliest registration among equal deadlines. *)
Fixpoint next_due (t : Z) (l : list Timer) : option Timer :=
  match l with
  | [] => None
  | tm :: r =>
      if deadline tm <=? t then
        match next_due t r with
        | Some tm' => if deadline tm <=? deadline tm' then Some tm else Some tm'
        | None => Some tm
        end
      else next_due t r
  end.

(** Run the timers due by [t], then set the clock to [t].  [None] when
    [fuel] firings were not enough. *)
Fixpoint advance (fuel : nat) (t : Z) (s : State)
  : option (State * list Output) :=
  match next_due t (timers s) with
  | None => Some (set_now (Z.max (now s) t) s, [])
  | Some tm =>
      match fuel with
      | O => None
      | S fuel' =>
          let '(s1, o1) := commit (fire tm s) in
          match advance fuel' t s1 with
          | Some (s2, o2) => Some (s2, o1 ++ o2)
          | None => None
          end
      end
  end.

(** *** Observations used in the statements *)

Definition is_MarkAsRead (o : Output) : bool :=
  match o with MarkAsRead => true | _ => false end.

Definition is_OutboundSend (o : Output) : bool :=
  match o with OutboundSend _ => true | _ => false end.

Definition is_ScrollToBottom (o : Output) : bool :=
  match o with ScrollToBottom _ => true | _ => false end.

Definition count (f : Output -> bool) (o : list Output) : nat :=
  length (List.filter f o).

Definition is_Expire (tm : Timer) : bool :=
  match action tm with Expire => true | Settle _ => false end.

(** The armed 5-second timers. *)
Definition expiry_timers (s : State) : list Timer :=
  List.filter is_Expire (timers s).

(** The drafts shown after each event of a run. *)
Fixpoint drafts (s : State) (es : list Event) : list JSString :=
  match es with
  | [] => []
  | e :: es' => newMessage (fst (step s e)) :: drafts (fst (step s e)) es'
  end.

(** Local state as a fresh instance has it. *)
Definition local_state_initial (s : State) : Prop :=
  newMessage s = [] /\ isTyping s = false /\ expiry_timers s = [] /\
  isPending s = false.

(** *** Invariant of the states the event loop reaches *)

(** Every effect has seen the current dependency values. *)
Definition settled (s : State) : Prop :=
  committed s = Some (current_deps s).

(** An armed timer is either the expiry timer the component holds the
    handle of, or the pending update of the debounce hook, scheduled at
    most a second ahead for the value [isTyping] had at the last commit. *)
Definition timer_ok (s : State) (tm : Timer) : Prop :=
  0 < tid tm < nextTimerId s /\
  match action tm with
  | Expire => tid tm = isTypingTimeoutID s
  | Settle v =>
      debounceHandler s = Some (tid tm) /\
      dep_isTyping <$> committed s = Some v /\
      deadline tm <= now s + 1000
  end.

(** Handles are numbers already handed out; the debounce hook's handle is
    not one the component stored or captured. *)
Definition handles_ok (s : State) : Prop :=
  0 <= isTypingTimeoutID s < nextTimerId s /\
  (forall h, debounceHandler s = Some h ->
     0 < h < nextTimerId s /\ h <> isTypingTimeoutID s) /\
  (forall f, sendInFlight s = Some f ->
     captured_isTypingTimeoutID f < nextTimerId s /\
     debounceHandler s <> Some (captured_isTypingTimeoutID f)).

Definition timers_wf (s : State) : Prop :=
  NoDup (tid <$> timers s) /\
  Forall (timer_ok s) (timers s) /\
  handles_ok s.

Definition wf (s : State) : Prop := settled s /\ timers_wf s.

(** Events that are neither a keystroke nor about the call in flight. *)
Definition bystander (e : Event) : Prop :=
  match e with
  | Render _ _ | Submit | TimerFire _ => True
  | InputChange _ | SendSettled _ | SendReset => False
  end.

(** Between a send and its answer, with nothing typed: the call [f] is in
    flight, the draft is empty, and the timer handle is still the one the
    [onSuccess] closure captured. *)
Definition awaiting (f : InFlight) (s : State) : Prop :=
  wf s /\
  sendInFlight s = Some f /\
  newMessage s = [] /\
  isTypingTimeoutID s = captured_isTypingTimeoutID f.

(** *** Measures and invariants of a timed run *)

(** Timer firings still owed: an expiry timer counts twice, because its
    firing makes the debounce hook schedule one more update. *)
Definition weight (tm : Timer) : nat := if is_Expire tm then 2 else 1.

Definition pending_work (s : State) : nat :=
  sum_list_with weight (timers s).


(** In the six seconds after a keystroke at [t0] with no further input:
    while the typing flag is up its expiry timer is armed and everything
    is due within five seconds; once it is down everything is due within
    six, and a debounced value still [true] has its update to [false]
    scheduled. *)
Definition expiring (t0 : Z) (s : State) : Prop :=
  wf s /\
  (isTyping s = true ->
   now s <= t0 + 5000 /\
   (exists x, x ∈ timers s /\ action x = Expire) /\
   (forall x, x ∈ timers s -> deadline x <= t0 + 5000)) /\
  (isTyping s = false ->
   (forall x, x ∈ timers s -> deadline x <= t0 + 6000) /\
   (debouncedTyping s = true ->
    exists x, x ∈ timers s /\ action x = Settle false)).

End ChatWindow.

(** ** Concrete inputs used by the examples below *)

Module Examples.
Import JS.

Definition thread3 : list Grouping.Message :=
  [ Grouping.mkMessage (lit "m1") (lit "ann") (lit "bob") 0;
    Grouping.mkMessage (lit "m2") (lit "ann") (lit "bob") 120000;
    Grouping.mkMessage (lit "m3") (lit "ann") (lit "bob") 900000 ].

(** The user dismisses the permission prompt with "Block". *)
Definition env_denied : Firebase.Env :=
  Firebase.mkEnv (Firebase.Fulfilled Firebase.denied)
    (Firebase.Fulfilled (lit "token")).

(** Permission is granted but the SDK fails to fetch a token. *)
Definition env_token_error : Firebase.Env :=
  Firebase.mkEnv (Firebase.Fulfilled Firebase.granted)
    (Firebase.Rejected (lit "messaging/token-subscribe-failed")).

(** A loaded conversation with two messages, in conversation "A". *)
Definition props_A : ChatWindow.Props :=
  ChatWindow.mkProps (lit "A") false true.

Definition data_A : ChatWindow.Data :=
  ChatWindow.mkData
    (Some (ChatWindow.mkConversation 1 (lit "bob"))) false
    (Some (ChatWindow.mkMessageList 1 (firstn 2 thread3))) false.

(** The same conversation after a third message arrived. *)
Definition data_A_more : ChatWindow.Data :=
  ChatWindow.mkData
    (Some (ChatWindow.mkConversation 1 (lit "bob"))) false
    (Some (ChatWindow.mkMessageList 2 thread3)) false.

(** The parent selects conversation "B"; its data is still loading. *)
Definition props_B : ChatWindow.Props :=
  ChatWindow.mkProps (lit "B") false true.

Definition data_B_loading : ChatWindow.Data :=
  ChatWindow.mkData None true None true.

Definition data_B : ChatWindow.Data :=
  ChatWindow.mkData
    (Some (ChatWindow.mkConversation 2 (lit "eve"))) false
    (Some (ChatWindow.mkMessageList 3 [])) false.

Definition mounted_A : ChatWindow.State :=
  fst (ChatWindow.mount props_A data_A).

(** "Hello" typed into conversation "A". *)
Definition typed_A : ChatWindow.State :=
  fst (ChatWindow.step mounted_A (ChatWindow.InputChange (lit "Hello"))).

(** Only blanks typed into conversation "A". *)
Definition blank_A : ChatWindow.State :=
  fst (ChatWindow.step mounted_A (ChatWindow.InputChange (lit "   "))).

(** Conversation "B" selected but nothing loaded yet. *)
Definition loading_B : ChatWindow.State :=
  fst (ChatWindow.mount props_B data_B_loading).

End Examples.

(** ** src/lib/firebase.ts: the foreground message listener *)

Module Listener.
Import JS.

Section WithPayload.

Variable Payload : Type.

(** The promise made by [new Promise((resolve) => ...)]. *)
Inductive PromiseState :=
| Pending
| Done (r : Firebase.Settled Payload).

(** [resolve(payload)]: a promise settles once, later calls are ignored. *)
Definition resolve (payload : Payload) (st : PromiseState) : PromiseState :=
  match st with
  | Pending => Done (Firebase.Fulfilled payload)
  | Done _ => st
  end.

(** Lines 42-47.  [registration] is what the call of [onMessage] inside
    the executor does: it returns, or it throws and the promise is
    rejected with the thrown value.  [payloads] are the messages the SDK
    then hands to the callback, in order. *)
Definition onMessageListener (registration : Firebase.Settled unit)
    (payloads : list Payload) : PromiseState :=
  match registration with
  | Firebase.Rejected e => Done (Firebase.Rejected e)
  | Firebase.Fulfilled _ =>
      fold_left (fun st payload => resolve payload st) payloads Pending
  end.

End WithPayload.

Arguments Pending {Payload}.
Arguments Done {Payload} r.

End Listener.

(** ** ChatWindow: what is rendered *)

Module View.
Import JS.
Import ChatWindow.

Inductive SubmitIcon := Spinner | SendIcon.

(** The props of one [MessageBubble], lines 171-178. *)
Record Bubble := mkBubble {
  bubble_key : JSString;
  bubble_isCurrentUser : bool;
  bubble_flags : Flags
}.

(** The messages area, lines 167-193. *)
Inductive Body :=
| NoMessagesYet
| Thread (rows : list Bubble) (typingIndicator : bool).

(** The input and the submit button, lines 196-215. *)
Record Form := mkForm {
  form_value : JSString;
  form_disabled : bool;
  form_icon : SubmitIcon
}.

(** The three return statements of the component.  Of the header only the
    recipient's name is kept; avatar, initials and class names are display
    only. *)
Inductive Screen :=
| Loading
| NotFound
| Chat (recipient : JSString) (body : Body) (form : Form).

Section WithDateLibrary.

Variable differenceInSeconds : Z -> Z -> Z.

(** [message.senderId === user?.id], with [user] of [useAuth]: without a
    user the right-hand side is [undefined]. *)
Definition isCurrentUser_expr (user : option JSString) (message : Message)
  : bool :=
  match user with
  | Some uid => str_eq (senderId message) uid
  | None => false
  end.

Definition message_bubble (user : option JSString) (messages : list Message)
    (index : nat) (message : Message) : option Bubble :=
  f ← bubble differenceInSeconds messages index message;
  Some (mkBubble (Grouping.id message) (isCurrentUser_expr user message) f).

(** Lines 127-217: [None] if evaluating the JSX throws. *)
Definition render (user : option JSString) (s : State) : option Screen :=
  if isConversationLoading (data s) || isMessagesLoading (data s)
  then Some Loading
  else
    match conversation (data s) with
    | None => Some NotFound
    | Some c =>
        body ← match messages (data s) with
               | Some m =>
                   match items m with
                   | [] => Some NoMessagesYet
                   | _ :: _ =>
                       rows ← mapM (fun row => row)
                                (imap (message_bubble user (items m)) (items m));
                       Some (Thread rows (recipientTyping (props s)))
                   end
               | None => Some NoMessagesYet
               end;
        Some (Chat (recipient_name c) body
                (mkForm (newMessage s) (submitDisabled s)
                   (if isPending s then Spinner else SendIcon)))
    end.

End WithDateLibrary.

End View.

(** ** ChatWindow: what every reachable state satisfies *)

Module Liveness.
Import JS.
Import ChatWindow.

Local Open Scope Z_scope.

(** A raised typing flag has its expiry timer armed, an expiry timer is due
    within five seconds, and a debounced value that lags behind the typing
    flag has its update pending. *)
Definition live (s : State) : Prop :=
  wf s /\
  (isTyping s = true -> exists x, x ∈ timers s /\ action x = Expire) /\
  (forall x, x ∈ timers s -> action x = Expire -> deadline x <= now s + 5000) /\
  (debouncedTyping s <> isTyping s ->
   exists x, x ∈ timers s /\ action x = Settle (isTyping s)).

(** Events that end the call in flight. *)
Definition ends_call (e : Event) : bool :=
  match e with
  | SendSettled _ | SendReset => true
  | _ => false
  end.

Definition is_TypingChange (o : Output) : bool :=
  match o with TypingChange _ => true | _ => false end.

(** A code unit that [trim] does not strip. *)
Definition visible (c : N) : Prop := isWhiteSpace c = false.

End Liveness.

(** ** More concrete inputs *)

Module MoreExamples.
Import JS.

(** "Hello" submitted in conversation "A", the answer still out. *)
Definition sent_A : ChatWindow.State :=
  fst (ChatWindow.send Examples.typed_A).

(** Two messages 600.5 seconds apart. *)
Definition thread_gap : list Grouping.Message :=
  [ Grouping.mkMessage (lit "m1") (lit "ann") (lit "bob") 0;
    Grouping.mkMessage (lit "m2") (lit "ann") (lit "bob") 600500 ].

(** Conversation "A" again, with a third message, after the hook fetched
    the conversation anew: another object for the same conversation. *)
Definition data_A_refetched : ChatWindow.Data :=
  ChatWindow.mkData
    (Some (ChatWindow.mkConversation 7 (lit "bob"))) false
    (Some (ChatWindow.mkMessageList 2 Examples.thread3)) false.

Definition env_granted : Firebase.Env :=
  Firebase.mkEnv (Firebase.Fulfilled Firebase.granted)
    (Firebase.Fulfilled (lit "token")).

End MoreExamples.

(** * Properties *)

Import JS.
Import Examples.

(** ** Message grouping *)

Section GroupingProperties.
Import Grouping.

Variable differenceInSeconds : Z -> Z -> Z.

Lemma at_index_nat (messages : list Message) (n : nat) :
  at_index messages (Z.of_nat n) = messages !! n.
Proof.
  unfold at_index. destruct (Z.ltb_spec (Z.of_nat n) 0); [lia|].
  by rewrite Nat2Z.id.
Qed.

Lemma at_index_pred (messages : list Message) (n : nat) :
  (0 < n)%nat -> at_index messages (Z.of_nat n - 1) = messages !! (n - 1)%nat.
Proof.
  intros Hn. replace (Z.of_nat n - 1)%Z with (Z.of_nat (n - 1)) by lia.
  apply at_index_nat.
Qed.

Lemma at_index_succ (messages : list Message) (n : nat) :
  at_index messages (Z.of_nat n + 1) = messages !! (n + 1)%nat.
Proof.
  replace (Z.of_nat n + 1)%Z with (Z.of_nat (n + 1)) by lia.
  apply at_index_nat.
Qed.

(** No prop expression reads a field of [undefined]: inside the array
    every bubble gets its three flags. *)
Lemma bubble_is_Some (messages : list Message) (i : nat) (cur : Message) :
  messages !! i = Some cur ->
  is_Some (bubble differenceInSeconds messages i cur).
Proof.
  intros Hcur. pose proof (lookup_lt_Some _ _ _ Hcur) as Hlt.
  unfold bubble, showTimeSeparator_expr, continiousTop_expr,
    continiousBottom_expr.
  destruct (Z.gtb_spec (Z.of_nat i) 0) as [Hi|Hi].
  - rewrite at_index_pred by lia.
    destruct (lookup_lt_is_Some_2 messages (i - 1)%nat) as [prev ->]; [lia|].
    cbn. destruct (Z.ltb_spec (Z.of_nat i) (Z.of_nat (length messages) - 1)).
    + rewrite at_index_succ.
      destruct (lookup_lt_is_Some_2 messages (i + 1)%nat) as [next ->]; [lia|].
      cbn. repeat case_match; cbn; eauto.
    + repeat case_match; cbn; eauto.
  - cbn. destruct (Z.ltb_spec (Z.of_nat i) (Z.of_nat (length messages) - 1)).
    + rewrite at_index_succ.
      destruct (lookup_lt_is_Some_2 messages (i + 1)%nat) as [next ->]; [lia|].
      cbn. repeat case_match; cbn; eauto.
    + cbn. eauto.
Qed.

Lemma bubbles_lookup (messages : list Message) :
  exists flags,
    bubbles differenceInSeconds messages = Some flags /\
    forall i cur, messages !! i = Some cur ->
      exists f, flags !! i = Some f /\
                bubble differenceInSeconds messages i cur = Some f.
Proof.
  unfold bubbles.
  destruct (mapM (fun props => props)
              (imap (bubble differenceInSeconds messages) messages))
    as [flags|] eqn:E.
  - exists flags. split; [done|]. intros i cur Hcur.
    apply mapM_Some_1 in E.
    assert (Hl : imap (bubble differenceInSeconds messages) messages !! i
                 = Some (bubble differenceInSeconds messages i cur)).
    { rewrite list_lookup_imap, Hcur. done. }
    destruct (Forall2_lookup_l _ _ _ _ _ E Hl) as (f & Hf & Hb).
    exists f. done.
  - exfalso. apply mapM_None_1 in E.
    apply Exists_exists in E as (o & Hin & Ho).
    apply list_elem_of_lookup in Hin as (i & Hi).
    rewrite list_lookup_imap in Hi.
    destruct (messages !! i) as [cur|] eqn:Hcur; [|done].
    cbn in Hi. injection Hi as <-.
    destruct (bubble_is_Some messages i cur Hcur) as [f Hf].
    rewrite Hf in Ho. done.
Qed.

(** The flags of bubble [i] in terms of whatever number
    [differenceInSeconds] returns for the two neighbours. *)
Lemma grouping_flags_any_date_function
    (messages : list Message) (i : nat) (cur : Message) :
  messages !! i = Some cur ->
  exists flags f,
    bubbles differenceInSeconds messages = Some flags /\
    flags !! i = Some f /\
    (showTimeSeparator f = true <->
       (0 < i)%nat /\
       exists prev, messages !! (i - 1)%nat = Some prev /\
         (600 < differenceInSeconds (createdAt cur) (createdAt prev))%Z) /\
    (continiousTop f = true <->
       (0 < i)%nat /\
       exists prev, messages !! (i - 1)%nat = Some prev /\
         recipientId prev = recipientId cur /\
         (differenceInSeconds (createdAt cur) (createdAt prev) < 300)%Z) /\
    (continiousBottom f = true <->
       exists next, messages !! (i + 1)%nat = Some next /\
         recipientId next = recipientId cur /\
         (differenceInSeconds (createdAt next) (createdAt cur) < 300)%Z).
Proof.
  intros Hcur. pose proof (lookup_lt_Some _ _ _ Hcur) as Hlt.
  destruct (bubbles_lookup messages) as (flags & Hflags & Hall).
  destruct (Hall i cur Hcur) as (f & Hf & Hb).
  exists flags, f. split; [done|]. split; [done|].
  unfold bubble in Hb.
  destruct (showTimeSeparator_expr differenceInSeconds messages cur
              (Z.of_nat i)) as [a|] eqn:Ea; [|done].
  destruct (continiousTop_expr differenceInSeconds messages cur
              (Z.of_nat i)) as [b|] eqn:Eb; [|done].
  destruct (continiousBottom_expr differenceInSeconds messages cur
              (Z.of_nat i)) as [c|] eqn:Ec; [|done].
  cbn in Hb. injection Hb as <-. cbn.
  unfold showTimeSeparator_expr in Ea. unfold continiousTop_expr in Eb.
  unfold continiousBottom_expr in Ec. unfold str_eq in *.
  split; [|split].
  - destruct (Z.gtb_spec (Z.of_nat i) 0) as [Hi|Hi].
    + rewrite at_index_pred in Ea by lia.
      destruct (messages !! (i - 1)%nat) as [prev|]; [|done].
      cbn in Ea. injection Ea as <-. rewrite Z.gtb_ltb, Z.ltb_lt.
      split.
      * intros H. split; [lia|]. by exists prev.
      * intros (_ & prev' & [= <-] & H). done.
    + injection Ea as <-. split; [done|]. intros (H & _). lia.
  - destruct (Z.gtb_spec (Z.of_nat i) 0) as [Hi|Hi].
    + rewrite at_index_pred in Eb by lia.
      destruct (messages !! (i - 1)%nat) as [prev|]; [|done].
      cbn in Eb. case_bool_decide as Hr.
      * cbn in Eb. injection Eb as <-. rewrite Z.ltb_lt. split.
        -- intros H. split; [lia|]. by exists prev.
        -- intros (_ & prev' & [= <-] & _ & H). done.
      * injection Eb as <-. split; [done|].
        intros (_ & prev' & [= <-] & H & _). done.
    + injection Eb as <-. split; [done|]. intros (H & _). lia.
  - destruct (Z.ltb_spec (Z.of_nat i) (Z.of_nat (length messages) - 1))
      as [Hi|Hi].
    + rewrite at_index_succ in Ec.
      destruct (messages !! (i + 1)%nat) as [next|]; [|done].
      cbn in Ec. case_bool_decide as Hr.
      * cbn in Ec. injection Ec as <-. rewrite Z.ltb_lt. split.
        -- intros H. by exists next.
        -- intros (next' & [= <-] & _ & H). done.
      * injection Ec as <-. split; [done|].
        intros (next' & [= <-] & H & _). done.
    + injection Ec as <-. split; [done|].
      intros (next & Hnext & _). apply lookup_lt_Some in Hnext. lia.
Qed.

End GroupingProperties.

(** The flags under date-fns: the gap is counted in whole seconds, so the
    separator appears from 601 000 ms on. *)
Lemma showTimeSeparator_datefns_ms (later earlier : Z) :
  (Grouping.differenceInSeconds_datefns later earlier >? 600)%Z = true <->
  (601000 <= later - earlier)%Z.
Proof.
  unfold Grouping.differenceInSeconds_datefns.
  rewrite Z.gtb_ltb, Z.ltb_lt.
  pose proof (Z.quot_rem' (later - earlier) 1000) as Hq.
  destruct (Z.le_gt_cases 0 (later - earlier)) as [Hs|Hs].
  - pose proof (Z.rem_bound_pos_pos (later - earlier) 1000) as Hp. lia.
  - pose proof (Z.rem_bound_pos_neg (later - earlier) 1000) as Hn. lia.
Qed.

Lemma continuity_datefns_ms (later earlier : Z) :
  (Grouping.differenceInSeconds_datefns later earlier <? 300)%Z = true <->
  (later - earlier < 300000)%Z.
Proof.
  unfold Grouping.differenceInSeconds_datefns.
  rewrite Z.ltb_lt.
  pose proof (Z.quot_rem' (later - earlier) 1000) as Hq.
  destruct (Z.le_gt_cases 0 (later - earlier)) as [Hs|Hs].
  - pose proof (Z.rem_bound_pos_pos (later - earlier) 1000) as Hp. lia.
  - pose proof (Z.rem_bound_pos_neg (later - earlier) 1000) as Hn. lia.
Qed.

Lemma datefns_over_600 (later earlier : Z) :
  (600 < Grouping.differenceInSeconds_datefns later earlier)%Z <->
  (601000 <= later - earlier)%Z.
Proof.
  rewrite <- showTimeSeparator_datefns_ms, Z.gtb_ltb, Z.ltb_lt. reflexivity.
Qed.

Lemma datefns_under_300 (later earlier : Z) :
  (Grouping.differenceInSeconds_datefns later earlier < 300)%Z <->
  (later - earlier < 300000)%Z.
Proof. rewrite <- continuity_datefns_ms, Z.ltb_lt. reflexivity. Qed.

(** C1, as the code has it.  With the [differenceInSeconds] of date-fns,
    which counts whole seconds, and timestamps in milliseconds: for every
    message sequence and every index [i] inside it the render yields the
    flags of every bubble, and those of bubble [i] are:
    [showTimeSeparator] iff [i > 0] and message [i] is at least 601 000 ms
    later than message [i-1]; [continiousTop] iff [i > 0], message [i-1]
    has the recipient of message [i] and message [i] is less than
    300 000 ms later than it; [continiousBottom] iff message [i+1] exists,
    has the recipient of message [i] and is less than 300 000 ms later
    than message [i]. *)
Theorem C1_grouping_flags_datefns
    (messages : list Grouping.Message) (i : nat) (cur : Grouping.Message) :
  messages !! i = Some cur ->
  exists flags f,
    Grouping.bubbles Grouping.differenceInSeconds_datefns messages
    = Some flags /\
    flags !! i = Some f /\
    (Grouping.showTimeSeparator f = true <->
       (0 < i)%nat /\
       exists prev, messages !! (i - 1)%nat = Some prev /\
         (601000 <= Grouping.createdAt cur - Grouping.createdAt prev)%Z) /\
    (Grouping.continiousTop f = true <->
       (0 < i)%nat /\
       exists prev, messages !! (i - 1)%nat = Some prev /\
         Grouping.recipientId prev = Grouping.recipientId cur /\
         (Grouping.createdAt cur - Grouping.createdAt prev < 300000)%Z) /\
    (Grouping.continiousBottom f = true <->
       exists next, messages !! (i + 1)%nat = Some next /\
         Grouping.recipientId next = Grouping.recipientId cur /\
         (Grouping.createdAt next - Grouping.createdAt cur < 300000)%Z).
Proof.
  intros Hcur.
  destruct (grouping_flags_any_date_function
              Grouping.differenceInSeconds_datefns messages i cur Hcur)
    as (flags & f & Hflags & Hf & Hsep & Htop & Hbot).
  exists flags, f. split; [exact Hflags|]. split; [exact Hf|].
  split; [|split].
  - rewrite Hsep. split; intros (Hi & prev & Hprev & Hgap);
      (split; [exact Hi|]); exists prev; (split; [exact Hprev|]);
      by apply datefns_over_600.
  - rewrite Htop. split; intros (Hi & prev & Hprev & Hr & Hgap);
      (split; [exact Hi|]); exists prev; (split; [exact Hprev|]);
      (split; [exact Hr|]); by apply datefns_under_300.
  - rewrite Hbot. split; intros (next & Hnext & Hr & Hgap);
      exists next; (split; [exact Hnext|]); (split; [exact Hr|]);
      by apply datefns_under_300.
Qed.

Lemma C1_grouping_flags_datefns_witness :
  exists flags f,
    Grouping.bubbles Grouping.differenceInSeconds_datefns thread3 = Some flags /\
    flags !! 2%nat = Some f /\
    Grouping.showTimeSeparator f = true.
Proof.
  destruct (C1_grouping_flags_datefns thread3 2
              (Grouping.mkMessage (lit "m3") (lit "ann") (lit "bob") 900000)
              eq_refl)
    as (flags & f & Hflags & Hf & Hsep & _).
  exists flags, f. split; [exact Hflags|]. split; [exact Hf|].
  apply Hsep. split; [lia|].
  eexists. split; [reflexivity|]. cbn. lia.
Defined.

(** C1 as stated fails: two messages 600.5 seconds apart are more than 600
    seconds apart, yet the later one gets no time separator. *)
Lemma C1_gap_just_over_600s :
  (600 * 1000 < 600500 - 0)%Z /\
  Grouping.bubbles Grouping.differenceInSeconds_datefns
    MoreExamples.thread_gap
  = Some [Grouping.mkFlags false false false;
          Grouping.mkFlags false false false].
Proof. split; [lia|]. vm_compute. reflexivity. Qed.

(** ** Notification permission and token *)

Section FirebaseProperties.
Import Firebase.

Lemma getFCMToken_cases (env : Env) :
  getFCMToken env =
  match getToken env with
  | Fulfilled token => ([], Fulfilled (Some token))
  | Rejected e => ([("FCM token error:"%string, e)], Fulfilled None)
  end.
Proof. unfold getFCMToken. destruct (getToken env); reflexivity. Qed.

Lemma requestNotificationPermission_cases (env : Env) :
  requestNotificationPermission env =
  match Notification_requestPermission env with
  | Fulfilled granted => getFCMToken env
  | Fulfilled _ => ([], Fulfilled None)
  | Rejected e =>
      ([("Notification permission error:"%string, e)], Fulfilled None)
  end.
Proof.
  unfold requestNotificationPermission.
  destruct (Notification_requestPermission env) as [[]|e]; cbn;
    try reflexivity.
  rewrite getFCMToken_cases. destruct (getToken env); reflexivity.
Qed.

(** C9, as the code has it.  Neither function ever rejects.  When the
    permission request or the token fetch throws, the result is [null]
    and the error is logged.  When the permission is not granted the
    result is [null] and nothing is logged. *)
Theorem C9_failures_return_null (env : Env) :
  (exists l r, requestNotificationPermission env = (l, Fulfilled r)) /\
  (exists l r, getFCMToken env = (l, Fulfilled r)) /\
  (forall e, getToken env = Rejected e ->
     getFCMToken env = ([("FCM token error:"%string, e)], Fulfilled None)) /\
  (forall e, Notification_requestPermission env = Rejected e ->
     requestNotificationPermission env =
     ([("Notification permission error:"%string, e)], Fulfilled None)) /\
  (forall e, Notification_requestPermission env = Fulfilled granted ->
     getToken env = Rejected e ->
     requestNotificationPermission env =
     ([("FCM token error:"%string, e)], Fulfilled None)) /\
  (forall p, Notification_requestPermission env = Fulfilled p ->
     p <> granted ->
     requestNotificationPermission env = ([], Fulfilled None)).
Proof.
  rewrite requestNotificationPermission_cases, getFCMToken_cases.
  repeat split.
  - destruct (Notification_requestPermission env) as [[]|e];
      [destruct (getToken env)|..]; eauto.
  - destruct (getToken env); eauto.
  - intros e ->. reflexivity.
  - intros e ->. reflexivity.
  - intros e -> ->. reflexivity.
  - intros p -> Hp. destruct p; [done|reflexivity..].
Qed.

End FirebaseProperties.

Lemma C9_failures_return_null_witness :
  Firebase.requestNotificationPermission env_token_error =
  ([("FCM token error:"%string, lit "messaging/token-subscribe-failed")],
   Firebase.Fulfilled None).
Proof.
  apply (C9_failures_return_null env_token_error); reflexivity.
Defined.

(** C9 as stated fails: a denied permission returns [null] but logs
    nothing. *)
Lemma C9_denied_is_not_logged :
  snd (Firebase.requestNotificationPermission env_denied)
    = Firebase.Fulfilled None /\
  ~ (exists line, In line (fst (Firebase.requestNotificationPermission env_denied))).
Proof.
  split; [reflexivity|]. intros (line & Hin). exact Hin.
Qed.

(** ** The chat window *)

Section ChatWindowBasics.
Import ChatWindow.
Local Open Scope Z_scope.

(** *** Counting outputs *)

Lemma count_app (f : Output -> bool) (a b : list Output) :
  count f (a ++ b) = (count f a + count f b)%nat.
Proof. unfold count. rewrite List.filter_app, length_app. reflexivity. Qed.

Lemma count_zero_iff (f : Output -> bool) (o : list Output) :
  count f o = 0%nat <-> forall x, In x o -> f x = false.
Proof.
  unfold count. induction o as [|y o IH]; cbn.
  - split; [intros _ x []|reflexivity].
  - destruct (f y) eqn:E; cbn.
    + split; [discriminate|]. intros H. rewrite (H y) in E by auto. discriminate.
    + rewrite IH. split.
      * intros H x [<-|Hx]; auto.
      * intros H x Hx. apply H. auto.
Qed.

(** *** What a commit leaves alone *)

Ltac commit_field :=
  intros; unfold commit, useDebounce_effect; cbn;
  destruct (changed dep_isTyping _); [destruct (debounceHandler _)|];
  reflexivity.

Lemma commit_props s : props (fst (commit s)) = props s.
Proof. commit_field. Qed.
Lemma commit_data s : data (fst (commit s)) = data s.
Proof. commit_field. Qed.
Lemma commit_newMessage s : newMessage (fst (commit s)) = newMessage s.
Proof. commit_field. Qed.
Lemma commit_isTyping s : isTyping (fst (commit s)) = isTyping s.
Proof. commit_field. Qed.
Lemma commit_isTypingTimeoutID s :
  isTypingTimeoutID (fst (commit s)) = isTypingTimeoutID s.
Proof. commit_field. Qed.
Lemma commit_debouncedTyping s :
  debouncedTyping (fst (commit s)) = debouncedTyping s.
Proof. commit_field. Qed.
Lemma commit_sendInFlight s : sendInFlight (fst (commit s)) = sendInFlight s.
Proof. commit_field. Qed.
Lemma commit_sendError s : sendError (fst (commit s)) = sendError s.
Proof. commit_field. Qed.
Lemma commit_now s : now (fst (commit s)) = now s.
Proof. commit_field. Qed.

Lemma commit_isPending s : isPending (fst (commit s)) = isPending s.
Proof. unfold isPending. rewrite commit_sendInFlight. reflexivity. Qed.

Lemma commit_settled s : settled (fst (commit s)).
Proof.
  unfold settled, commit, current_deps, useDebounce_effect. cbn.
  destruct (changed dep_isTyping s); [destruct (debounceHandler s)|];
    reflexivity.
Qed.

Lemma changed_settled {A} `{EqDecision A} (sel : Deps -> A) s :
  settled s -> changed sel s = false.
Proof.
  unfold settled, changed. intros ->.
  rewrite bool_decide_eq_true_2; reflexivity.
Qed.

(** A commit with nothing to do. *)
Lemma commit_quiet s : settled s -> commit s = (s, []).
Proof.
  intros H. unfold commit, useDebounce_effect, typing_effect, scroll_effect,
    markAsRead_effect.
  rewrite !(changed_settled _ s H). cbn.
  f_equal. unfold settled in H. destruct s.
  unfold set_committed, current_deps in *. cbn in *. subst. reflexivity.
Qed.

(** The debounce hook re-arms only when [isTyping] changed. *)
Lemma useDebounce_effect_same s d :
  committed s = Some d -> dep_isTyping d = isTyping s ->
  useDebounce_effect s = s.
Proof.
  intros Hc Hd. unfold useDebounce_effect, changed. rewrite Hc. cbn.
  rewrite bool_decide_eq_true_2; [reflexivity|exact Hd].
Qed.

Lemma commit_timers_same s d :
  committed s = Some d -> dep_isTyping d = isTyping s ->
  timers (fst (commit s)) = timers s /\
  nextTimerId (fst (commit s)) = nextTimerId s /\
  debounceHandler (fst (commit s)) = debounceHandler s.
Proof.
  intros Hc Hd. unfold commit. cbn.
  rewrite (useDebounce_effect_same s d Hc Hd). auto.
Qed.

(** *** What a commit emits *)

Lemma typing_effect_spec s o :
  In o (typing_effect s) ->
  o = TypingChange true /\ debouncedTyping s = true /\
  trim (newMessage s) <> [] /\ conversation (data s) <> None /\
  onIsTypingChange (props s) = true.
Proof.
  unfold typing_effect.
  destruct (changed dep_debouncedTyping s || changed dep_conversation s);
    [|intros []].
  destruct (conversation (data s)) as [c|]; cbn; [|intros []].
  destruct (debouncedTyping s); cbn; [|intros []].
  destruct (trim (newMessage s)) eqn:Et; cbn; [intros []|].
  destruct (onIsTypingChange (props s)); [|intros []].
  intros [<-|[]]. repeat split; congruence.
Qed.

Lemma scroll_effect_spec s o :
  In o (scroll_effect s) -> o = ScrollToBottom (endRefAttached s).
Proof.
  unfold scroll_effect, scrollToBottom.
  destruct (_ || _); [|intros []]. intros [<-|[]]. reflexivity.
Qed.

Lemma markAsRead_effect_spec s o :
  In o (markAsRead_effect s) -> o = MarkAsRead.
Proof.
  unfold markAsRead_effect.
  destruct (changed dep_conversation s); [|intros []].
  destruct (conversation (data s)); [|intros []].
  intros [<-|[]]. reflexivity.
Qed.

Lemma commit_output s o :
  In o (snd (commit s)) ->
  (o = TypingChange true /\ trim (newMessage s) <> []) \/
  o = ScrollToBottom (endRefAttached s) \/ o = MarkAsRead.
Proof.
  unfold commit. cbn. rewrite !in_app_iff. intros [H|[H|H]].
  - left. apply typing_effect_spec in H. tauto.
  - right. left. by apply scroll_effect_spec.
  - right. right. by apply (markAsRead_effect_spec s).
Qed.

Lemma commit_count_MarkAsRead s :
  count is_MarkAsRead (snd (commit s)) =
  if changed dep_conversation s
  then match conversation (data s) with Some _ => 1%nat | None => 0%nat end
  else 0%nat.
Proof.
  unfold commit. cbn [snd]. rewrite !count_app.
  assert (H1 : count is_MarkAsRead (typing_effect s) = 0%nat).
  { apply count_zero_iff. intros x Hx.
    apply typing_effect_spec in Hx as (-> & _). reflexivity. }
  assert (H2 : count is_MarkAsRead (scroll_effect s) = 0%nat).
  { apply count_zero_iff. intros x Hx.
    apply scroll_effect_spec in Hx as ->. reflexivity. }
  rewrite H1, H2. unfold markAsRead_effect.
  destruct (changed dep_conversation s); [|reflexivity].
  destruct (conversation (data s)); reflexivity.
Qed.

Lemma commit_count_OutboundSend s :
  count is_OutboundSend (snd (commit s)) = 0%nat.
Proof.
  apply count_zero_iff. intros x Hx.
  apply commit_output in Hx as [(-> & _)|[->| ->]]; reflexivity.
Qed.

(** *** Handlers *)

Lemma then_commit_fst s o : fst (then_commit (s, o)) = fst (commit s).
Proof. unfold then_commit. destruct (commit s). reflexivity. Qed.

Lemma then_commit_snd s o : snd (then_commit (s, o)) = o ++ snd (commit s).
Proof. unfold then_commit. destruct (commit s). reflexivity. Qed.

Lemma not_str_false (v : JSString) : v <> [] -> not_str v = false.
Proof. destruct v; [congruence|reflexivity]. Qed.

Lemma handleSendMessage_blank s :
  trim (newMessage s) = [] -> handleSendMessage s = (s, [PreventDefault]).
Proof. unfold handleSendMessage. intros ->. reflexivity. Qed.

Lemma handleSendMessage_nonblank s :
  trim (newMessage s) <> [] ->
  handleSendMessage s =
  (setNewMessage []
     (set_send (Some (mkInFlight (newMessage s) (isTypingTimeoutID s))) None s),
   [PreventDefault; OutboundSend (newMessage s)]).
Proof.
  unfold handleSendMessage. intros H. rewrite (not_str_false _ H). reflexivity.
Qed.

Lemma settle_failed s f e :
  sendInFlight s = Some f ->
  settle (Failed e) s = (set_send None (Some e) s, []).
Proof. unfold settle. intros ->. reflexivity. Qed.

Lemma settle_ack s f :
  sendInFlight s = Some f ->
  settle Ack s = onSuccess f (set_send None None s).
Proof. unfold settle. intros ->. reflexivity. Qed.

(** Every typing signal comes from a commit, carries [true], and is sent
    in a state whose trimmed draft is not empty. *)
Lemma then_commit_typing s o b :
  (forall b', ~ In (TypingChange b') o) ->
  In (TypingChange b) (snd (then_commit (s, o))) ->
  b = true /\ trim (newMessage (fst (then_commit (s, o)))) <> [].
Proof.
  intros Ho. rewrite then_commit_snd, then_commit_fst, commit_newMessage.
  rewrite in_app_iff. intros [H|H]; [by apply Ho in H|].
  apply commit_output in H as [(E & Ht)|[E|E]]; [|discriminate E..].
  split; [congruence|exact Ht].
Qed.

Lemma commit_typing s b :
  In (TypingChange b) (snd (commit s)) ->
  b = true /\ trim (newMessage (fst (commit s))) <> [].
Proof.
  intros H. apply (then_commit_typing s [] b); [intros b' []|].
  rewrite then_commit_snd. exact H.
Qed.

Lemma step_typing s e b :
  In (TypingChange b) (snd (step s e)) ->
  b = true /\ trim (newMessage (fst (step s e))) <> [].
Proof.
  destruct e as [p d|v| |h|r|]; cbn [step].
  - apply commit_typing.
  - apply commit_typing.
  - destruct (submitDisabled s); [intros []|].
    unfold send, handleSendMessage.
    destruct (not_str (trim (newMessage s))); cbn [mutate];
      apply then_commit_typing; intros b' H; cbn in H; intuition congruence.
  - destruct (List.find _ _) as [tm|]; [|intros []]. apply commit_typing.
  - unfold settle. destruct (sendInFlight s) as [f|].
    + destruct r; [unfold onSuccess, scrollToBottom; cbv zeta|];
        apply then_commit_typing; intros b' H; cbn in H; intuition congruence.
    + apply then_commit_typing. intros b' [].
  - apply commit_typing.
Qed.

End ChatWindowBasics.

(** ** The invariant holds in every state the event loop reaches *)

Section ChatWindowInvariant.
Import ChatWindow.
Local Open Scope Z_scope.

Lemma NoDup_tid_filter (P : Timer -> Prop) `{!forall tm, Decision (P tm)}
    (l : list Timer) :
  NoDup (tid <$> l) -> NoDup (tid <$> filter P l).
Proof.
  intros Hnd. eapply sublist_NoDup; [exact Hnd|].
  apply fmap_sublist, sublist_filter.
Qed.

Lemma NoDup_tid_snoc (l : list Timer) (tm : Timer) :
  NoDup (tid <$> l) -> (forall x, x ∈ l -> tid x < tid tm) ->
  NoDup (tid <$> (l ++ [tm])).
Proof.
  intros Hnd Hlt. rewrite fmap_app. apply NoDup_app. split; [exact Hnd|].
  split; [|apply NoDup_singleton].
  intros i Hi Hi'. apply list_elem_of_singleton in Hi'. subst i.
  apply list_elem_of_fmap in Hi as (x & Hx & Hin).
  specialize (Hlt x Hin). lia.
Qed.

(** The input handler. *)
Lemma handleInputChange_timers_wf v s :
  timers_wf s -> timers_wf (handleInputChange v s).
Proof.
  intros (Hnd & Hall & (Hid & Hh & Hf)).
  unfold handleInputChange. destruct v as [|c v]; cbn [not_str].
  { split; [exact Hnd|]. split; [exact Hall|]. split; [exact Hid|].
    split; [exact Hh|exact Hf]. }
  rewrite Forall_forall in Hall.
  unfold timers_wf, handles_ok. cbn.
  split; [|split; [|split; [|split]]].
  - apply NoDup_tid_snoc; [by apply NoDup_tid_filter|].
    intros x Hx. apply list_elem_of_filter in Hx as (_ & Hx).
    destruct (Hall x Hx) as (Hb & _). cbn. lia.
  - apply Forall_app. split.
    + apply Forall_forall. intros tm Htm.
      apply list_elem_of_filter in Htm as (Hne & Htm).
      destruct (Hall tm Htm) as (Hb & Ha). unfold timer_ok. cbn.
      split; [lia|]. destruct (action tm); [congruence|exact Ha].
    + apply Forall_singleton. unfold timer_ok. cbn. split; [lia|reflexivity].
  - lia.
  - intros h Hh'. destruct (Hh h Hh'). lia.
  - intros f Hf'. destruct (Hf f Hf'). split; [lia|assumption].
Qed.

(** Cancelling a timer. *)
Lemma clearTimeout_timers_wf h s :
  timers_wf s -> timers_wf (clearTimeout h s).
Proof.
  intros (Hnd & Hall & Hok). split; [|split; [|exact Hok]]; cbn.
  - by apply NoDup_tid_filter.
  - rewrite Forall_forall in Hall. apply Forall_forall. intros tm Htm.
    apply list_elem_of_filter in Htm as (_ & Htm). exact (Hall tm Htm).
Qed.

(** The submit handler. *)
Lemma handleSendMessage_timers_wf s :
  timers_wf s -> timers_wf (fst (handleSendMessage s)).
Proof.
  intros Hwf. unfold handleSendMessage.
  destruct (not_str (trim (newMessage s))); [exact Hwf|]. cbn.
  destruct Hwf as (Hnd & Hall & (Hid & Hh & Hf)).
  split; [exact Hnd|]. split; [exact Hall|]. split; [exact Hid|].
  split; [exact Hh|]. cbn. intros f [= <-]. cbn. split; [lia|].
  intros E. destruct (Hh _ E) as (_ & Hne). by apply Hne.
Qed.

(** The mutation settling. *)
Lemma settle_timers_wf r s :
  timers_wf s -> timers_wf (fst (settle r s)).
Proof.
  intros Hwf. unfold settle. destruct (sendInFlight s) as [f|]; [|exact Hwf].
  assert (Hwf' : timers_wf (set_send None (match r with
                                           | Ack => None
                                           | Failed e => Some e
                                           end) s)).
  { destruct Hwf as (Hnd & Hall & (Hid & Hh & Hf)).
    split; [exact Hnd|]. split; [exact Hall|]. split; [exact Hid|].
    split; [exact Hh|]. cbn. intros f' [=]. }
  destruct r as [|e]; [|exact Hwf'].
  unfold onSuccess. cbn [fst].
  apply (clearTimeout_timers_wf (captured_isTypingTimeoutID f)
           (setIsTyping false (set_send None None s))).
  exact Hwf'.
Qed.

(** A timer firing. *)
Lemma fire_timers_wf tm s :
  timers_wf s -> timers_wf (fire tm s).
Proof.
  intros (Hnd & Hall & Hok).
  assert (Hwf' : timers_wf
            (set_now (Z.max (now s) (deadline tm)) (clearTimeout (tid tm) s))).
  { split; [|split; [|exact Hok]]; cbn.
    - by apply NoDup_tid_filter.
    - rewrite Forall_forall in Hall. apply Forall_forall. intros x Hx.
      apply list_elem_of_filter in Hx as (_ & Hx).
      destruct (Hall x Hx) as (Hb & Ha). split; [exact Hb|].
      destruct (action x); [exact Ha|]. cbn.
      destruct Ha as (? & ? & ?). repeat split; try assumption. lia. }
  unfold fire. destruct (action tm); exact Hwf'.
Qed.

(** The debounce hook re-arming: the timers [l] it leaves are expiry
    timers of [s], and a new pending update is appended. *)
Lemma debounce_rearm_timers_wf s (l : list Timer) :
  (forall x, x ∈ l -> x ∈ timers s /\ action x = Expire) ->
  NoDup (tid <$> l) ->
  Forall (timer_ok s) (timers s) ->
  handles_ok s ->
  timers_wf
    (set_committed (Some (current_deps s))
       (set_debounceHandler (Some (nextTimerId s))
          (set_timers
             (l ++ [mkTimer (nextTimerId s) (now s + 1000) (Settle (isTyping s))])
             (nextTimerId s + 1) s))).
Proof.
  intros Hold Hnd Hall (Hid & Hh & Hf). rewrite Forall_forall in Hall.
  unfold timers_wf, handles_ok. cbn.
  split; [|split; [|split; [|split]]].
  - apply NoDup_tid_snoc; [exact Hnd|]. intros x Hx.
    destruct (Hold x Hx) as (Hx' & _). destruct (Hall x Hx') as (Hb & _).
    cbn. lia.
  - apply Forall_app. split.
    + apply Forall_forall. intros x Hx. destruct (Hold x Hx) as (Hx' & Ha).
      destruct (Hall x Hx') as (Hb & Hk). unfold timer_ok. cbn.
      rewrite Ha in *. split; [lia|exact Hk].
    + apply Forall_singleton. unfold timer_ok. cbn.
      split; [lia|]. split; [reflexivity|]. split; [reflexivity|lia].
  - lia.
  - intros h [= <-]. lia.
  - intros f Hf'. destruct (Hf f Hf'). split; [lia|]. intros [=]. lia.
Qed.

(** The effects. *)
Lemma commit_timers_wf s :
  timers_wf s -> timers_wf (fst (commit s)).
Proof.
  intros (Hnd & Hall & Hok).
  unfold commit, useDebounce_effect. cbn [fst].
  destruct (changed dep_isTyping s) eqn:Ech.
  - pose proof Hall as Hall'. rewrite Forall_forall in Hall'.
    destruct (debounceHandler s) as [h|] eqn:Eh.
    + apply (debounce_rearm_timers_wf s
               (filter (fun tm => tid tm <> h) (timers s)));
        [|by apply NoDup_tid_filter|exact Hall|exact Hok].
      intros x Hx. apply list_elem_of_filter in Hx as (Hne & Hx).
      split; [exact Hx|].
      destruct (Hall' x Hx) as (_ & Ha). destruct (action x); [reflexivity|].
      destruct Ha as (Ha & _). congruence.
    + apply (debounce_rearm_timers_wf s (timers s));
        [|exact Hnd|exact Hall|exact Hok].
      intros x Hx. split; [exact Hx|].
      destruct (Hall' x Hx) as (_ & Ha). destruct (action x); [reflexivity|].
      destruct Ha as (Ha & _). congruence.
  - destruct Hok as (Hid & Hh & Hf). rewrite Forall_forall in Hall.
    unfold changed in Ech. destruct (committed s) as [d|] eqn:Ec; [|done].
    apply negb_false_iff, bool_decide_eq_true in Ech.
    split; [exact Hnd|]. split; [|split; [exact Hid|split; [exact Hh|exact Hf]]].
    apply Forall_forall. intros x Hx. destruct (Hall x Hx) as (Hb & Ha).
    split; [exact Hb|]. destruct (action x); [exact Ha|]. cbn.
    destruct Ha as (Ha1 & Ha2 & Ha3). rewrite Ec in Ha2. cbn in Ha2.
    repeat split; [exact Ha1| |exact Ha3]. cbn in Ech. congruence.
Qed.

Lemma then_commit_timers_wf r :
  timers_wf (fst r) -> timers_wf (fst (then_commit r)).
Proof.
  destruct r as [s o]. rewrite then_commit_fst. apply commit_timers_wf.
Qed.

Lemma wf_mount p d : wf (fst (mount p d)).
Proof.
  split; [apply commit_settled|]. apply commit_timers_wf.
  split; [constructor|]. split; [constructor|].
  unfold handles_ok, initial. cbn [isTypingTimeoutID nextTimerId debounceHandler sendInFlight].
  split; [lia|]. split; intros ? [=].
Qed.

Lemma step_settled s e : settled s -> settled (fst (step s e)).
Proof.
  intros Hs. destruct e as [p d|v| |h|r|]; cbn [step];
    try apply commit_settled.
  - destruct (submitDisabled s); [exact Hs|]. unfold send.
    destruct (handleSendMessage s). rewrite then_commit_fst.
    apply commit_settled.
  - destruct (List.find _ _); [apply commit_settled|exact Hs].
  - destruct (settle r s). rewrite then_commit_fst. apply commit_settled.
Qed.

Lemma step_timers_wf s e : timers_wf s -> timers_wf (fst (step s e)).
Proof.
  intros Hwf. destruct e as [p d|v| |h|r|]; cbn [step].
  - apply commit_timers_wf. exact Hwf.
  - by apply commit_timers_wf, handleInputChange_timers_wf.
  - destruct (submitDisabled s); [exact Hwf|].
    by apply then_commit_timers_wf, handleSendMessage_timers_wf.
  - destruct (List.find _ _) as [tm|]; [|exact Hwf].
    by apply commit_timers_wf, fire_timers_wf.
  - by apply then_commit_timers_wf, settle_timers_wf.
  - apply commit_timers_wf.
    destruct Hwf as (Hnd & Hall & (Hid & Hh & Hf)).
    split; [exact Hnd|]. split; [exact Hall|]. split; [exact Hid|].
    split; [exact Hh|]. cbn. intros f [=].
Qed.

(** *** Timers across a commit *)

Lemma commit_timers_elem s x :
  x ∈ timers (fst (commit s)) ->
  x ∈ timers s \/
  x = mkTimer (nextTimerId s) (now s + 1000) (Settle (isTyping s)).
Proof.
  unfold commit, useDebounce_effect. cbn [fst].
  destruct (changed dep_isTyping s); [|by left].
  destruct (debounceHandler s) as [h|]; cbn; rewrite elem_of_app;
    intros [Hx|Hx].
  - left. by apply list_elem_of_filter in Hx as (_ & Hx).
  - right. by apply list_elem_of_singleton in Hx.
  - by left.
  - right. by apply list_elem_of_singleton in Hx.
Qed.

Lemma expiry_timers_nil s :
  (forall x, x ∈ timers s -> action x <> Expire) -> expiry_timers s = [].
Proof.
  unfold expiry_timers. intros H.
  induction (timers s) as [|x l IH]; [reflexivity|]. cbn.
  assert (Hx : is_Expire x = false).
  { unfold is_Expire. specialize (H x ltac:(left)).
    destruct (action x); [done|reflexivity]. }
  rewrite Hx. apply IH. intros y Hy. apply H. by right.
Qed.

Lemma armed_false h s :
  (forall x, x ∈ timers s -> tid x <> h) -> armed h s = false.
Proof.
  intros H. unfold armed. apply bool_decide_eq_false.
  intros Hex. apply Exists_exists in Hex as (x & Hx & Ht). by apply (H x).
Qed.

(** Every state of a run from a mount satisfies the invariant. *)
Lemma wf_step s e : wf s -> wf (fst (step s e)).
Proof.
  intros (Hs & Hwf). split; [by apply step_settled|by apply step_timers_wf].
Qed.

Lemma wf_run s es : wf s -> wf (fst (run s es)).
Proof.
  revert s. induction es as [|e es IH]; intros s Hwf; [exact Hwf|].
  cbn [run]. pose proof (wf_step s e Hwf) as H1.
  destruct (step s e) as [s1 o1]. cbn [fst] in H1.
  specialize (IH s1 H1). destruct (run s1 es) as [s2 o2]. exact IH.
Qed.

End ChatWindowInvariant.

(** ** Letting time pass *)

Section ChatWindowTime.
Import ChatWindow.
Local Open Scope Z_scope.

Lemma next_due_Some t l tm :
  next_due t l = Some tm -> tm ∈ l /\ deadline tm <= t.
Proof.
  induction l as [|x l IH]; cbn; [discriminate|].
  destruct (Z.leb_spec (deadline x) t) as [Hx|Hx].
  - destruct (next_due t l) as [y|].
    + destruct (deadline x <=? deadline y); intros [= <-].
      * split; [left|exact Hx].
      * destruct (IH eq_refl). split; [by right|assumption].
    + intros [= <-]. split; [left|exact Hx].
  - intros H. destruct (IH H). split; [by right|assumption].
Qed.

Lemma next_due_None t l :
  next_due t l = None -> forall x, x ∈ l -> t < deadline x.
Proof.
  induction l as [|y l IH]; cbn; intros H x Hx.
  - by apply elem_of_nil in Hx.
  - destruct (Z.leb_spec (deadline y) t) as [Hy|Hy].
    + destruct (next_due t l) as [z|]; [destruct (_ <=? _)|]; discriminate.
    + apply elem_of_cons in Hx as [->|Hx]; [exact Hy|by apply IH].
Qed.

Lemma fire_timers tm s :
  timers (fire tm s) = filter (fun x => tid x <> tid tm) (timers s).
Proof. unfold fire. destruct (action tm); reflexivity. Qed.

(** An invariant kept by every due timer's firing holds when time has
    passed, and then nothing is due any more. *)
Lemma advance_invariant (I : State -> Prop) (t : Z) :
  (forall s tm, I s -> tm ∈ timers s -> deadline tm <= t ->
     I (fst (commit (fire tm s)))) ->
  forall fuel s s' o,
    I s -> advance fuel t s = Some (s', o) ->
    exists s0, I s0 /\ (forall x, x ∈ timers s0 -> t < deadline x) /\
               s' = set_now (Z.max (now s0) t) s0.
Proof.
  intros Hkeep. induction fuel as [|fuel IH]; intros s s' o HI; cbn [advance];
    destruct (next_due t (timers s)) as [tm|] eqn:En.
  - discriminate.
  - intros [= <- <-]. exists s. split; [exact HI|].
    split; [by apply next_due_None|reflexivity].
  - apply next_due_Some in En as (Hin & Hd).
    pose proof (Hkeep s tm HI Hin Hd) as HI1.
    destruct (commit (fire tm s)) as [s1 o1]. cbn [fst] in HI1.
    destruct (advance fuel t s1) as [[s2 o2]|] eqn:Ea; [|discriminate].
    intros [= <- <-]. exact (IH s1 s2 o2 HI1 Ea).
  - intros [= <- <-]. exists s. split; [exact HI|].
    split; [by apply next_due_None|reflexivity].
Qed.

(** Whatever fires, a typing signal carries [true]. *)
Lemma advance_typing fuel t : forall s s' o b,
  advance fuel t s = Some (s', o) -> In (TypingChange b) o -> b = true.
Proof.
  induction fuel as [|fuel IH]; intros s s' o b; cbn [advance];
    destruct (next_due t (timers s)) as [tm|]; try discriminate;
    try (intros [= <- <-] []).
  pose proof (commit_typing (fire tm s) b) as Hc.
  destruct (commit (fire tm s)) as [s1 o1]. cbn [snd] in Hc.
  destruct (advance fuel t s1) as [[s2 o2]|] eqn:Ea; [|discriminate].
  intros [= <- <-] Hin. apply in_app_or in Hin as [Hin|Hin].
  - by apply Hc.
  - exact (IH s1 s2 o2 b Ea Hin).
Qed.

(** *** Termination *)

Lemma work_filter_le (P : Timer -> Prop) `{!forall x, Decision (P x)} l :
  (sum_list_with weight (filter P l) <= sum_list_with weight l)%nat.
Proof.
  induction l as [|x l IH]; [reflexivity|]. rewrite filter_cons.
  destruct (decide (P x)); cbn; lia.
Qed.

Lemma work_filter_elem (P : Timer -> Prop) `{!forall x, Decision (P x)} l tm :
  tm ∈ l -> ~ P tm ->
  (sum_list_with weight (filter P l) + weight tm <= sum_list_with weight l)%nat.
Proof.
  intros Hin Hn. induction l as [|x l IH]; [by apply elem_of_nil in Hin|].
  rewrite filter_cons. apply elem_of_cons in Hin as [<-|Hin].
  - destruct (decide (P tm)); [done|].
    pose proof (work_filter_le P l). cbn. lia.
  - specialize (IH Hin). destruct (decide (P x)); cbn; lia.
Qed.

Lemma commit_work s :
  (pending_work (fst (commit s))
   <= pending_work s + (if changed dep_isTyping s then 1 else 0))%nat.
Proof.
  unfold pending_work, commit, useDebounce_effect. cbn [fst].
  destruct (changed dep_isTyping s); [|cbn; lia].
  destruct (debounceHandler s) as [h|]; cbn; rewrite sum_list_with_app;
    cbn.
  - pose proof (work_filter_le (fun tm => tid tm <> h) (timers s)). lia.
  - lia.
Qed.

Lemma fire_commit_work tm s :
  settled s -> tm ∈ timers s ->
  (pending_work (fst (commit (fire tm s))) < pending_work s)%nat.
Proof.
  intros Hs Hin. pose proof (commit_work (fire tm s)) as Hc.
  assert (Hf : (pending_work (fire tm s) + weight tm <= pending_work s)%nat).
  { unfold pending_work. rewrite fire_timers.
    apply work_filter_elem; [exact Hin|]. intros H. by apply H. }
  assert (Hch : (weight tm = 2 \/
                 changed dep_isTyping (fire tm s) = false /\ weight tm = 1)%nat).
  { unfold weight, is_Expire, fire, changed. unfold settled in Hs.
    destruct (action tm); [by left|right]. cbn. rewrite Hs. cbn.
    rewrite bool_decide_eq_true_2; auto. }
  destruct Hch as [Hw|(Hch & Hw)].
  - destruct (changed dep_isTyping (fire tm s)); lia.
  - rewrite Hch in Hc. lia.
Qed.

(** With as much fuel as there is work pending, time passes. *)
Lemma advance_total t : forall fuel s,
  settled s -> (pending_work s <= fuel)%nat -> is_Some (advance fuel t s).
Proof.
  induction fuel as [|fuel IH]; intros s Hs Hw; cbn [advance];
    destruct (next_due t (timers s)) as [tm|] eqn:En; try (by eexists).
  - apply next_due_Some in En as (Hin & _).
    pose proof (fire_commit_work tm s Hs Hin). lia.
  - apply next_due_Some in En as (Hin & _).
    pose proof (fire_commit_work tm s Hs Hin) as Hlt.
    pose proof (commit_settled (fire tm s)) as Hs1.
    destruct (commit (fire tm s)) as [s1 o1]. cbn [fst] in *.
    destruct (IH s1 Hs1 ltac:(lia)) as [[s2 o2] ->]. by eexists.
Qed.

(** *** At most three firings are ever pending *)

Lemma filter_same_tid_length (P : Timer -> Prop) `{!forall x, Decision (P x)}
    (l : list Timer) :
  NoDup (tid <$> l) ->
  (forall x y, x ∈ l -> y ∈ l -> P x -> P y -> tid x = tid y) ->
  (length (filter P l) <= 1)%nat.
Proof.
  induction l as [|x l IH]; intros Hnd Hsame; [cbn; lia|].
  rewrite fmap_cons in Hnd. apply NoDup_cons in Hnd as (Hx & Hnd).
  assert (IH' : (length (filter P l) <= 1)%nat).
  { apply IH; [exact Hnd|]. intros y z Hy Hz. apply Hsame; by right. }
  rewrite filter_cons. destruct (decide (P x)) as [HP|HP]; [|exact IH'].
  destruct (filter P l) as [|y k] eqn:Ef; [cbn; lia|]. exfalso.
  assert (Hy : y ∈ filter P l) by (rewrite Ef; left).
  apply list_elem_of_filter in Hy as (HPy & Hy).
  apply Hx. apply list_elem_of_fmap. exists y. split; [|exact Hy].
  apply Hsame; [left|by right|exact HP|exact HPy].
Qed.

Lemma work_split (l : list Timer) :
  sum_list_with weight l =
  (2 * length (filter (fun x => is_Expire x = true) l)
   + length (filter (fun x => is_Expire x = false) l))%nat.
Proof.
  induction l as [|x l IH]; [reflexivity|]. rewrite !filter_cons. cbn.
  rewrite IH. unfold weight.
  destruct (is_Expire x); repeat case_decide; try done; cbn; lia.
Qed.

Lemma pending_work_bound s : timers_wf s -> (pending_work s <= 3)%nat.
Proof.
  intros (Hnd & Hall & _). rewrite Forall_forall in Hall.
  unfold pending_work. rewrite work_split.
  assert (He : (length (filter (fun x => is_Expire x = true) (timers s)) <= 1)%nat).
  { apply filter_same_tid_length; [exact Hnd|]. intros x y Hx Hy Ex Ey.
    destruct (Hall x Hx) as (_ & Hax). destruct (Hall y Hy) as (_ & Hay).
    unfold is_Expire in *. destruct (action x); [|done].
    destruct (action y); [|done]. congruence. }
  assert (Hc : (length (filter (fun x => is_Expire x = false) (timers s)) <= 1)%nat).
  { apply filter_same_tid_length; [exact Hnd|]. intros x y Hx Hy Ex Ey.
    destruct (Hall x Hx) as (_ & Hax). destruct (Hall y Hy) as (_ & Hay).
    unfold is_Expire in *. destruct (action x); [done|].
    destruct (action y); [done|].
    destruct Hax as (Hax & _). destruct Hay as (Hay & _). congruence. }
  lia.
Qed.

(** *** The two invariants are kept while timers fire *)

Lemma wf_fire tm s : wf s -> wf (fst (commit (fire tm s))).
Proof.
  intros (_ & Hwf). split; [apply commit_settled|].
  by apply commit_timers_wf, fire_timers_wf.
Qed.

Lemma settle_timer_value s x v :
  wf s -> x ∈ timers s -> action x = Settle v ->
  v = isTyping s /\ debounceHandler s = Some (tid x) /\
  tid x <> isTypingTimeoutID s.
Proof.
  intros (Hs & _ & Hall & (_ & Hh & _)) Hx Ha.
  rewrite Forall_forall in Hall. destruct (Hall x Hx) as (_ & Hk).
  rewrite Ha in Hk. destruct Hk as (Hd & Hv & _).
  unfold settled in Hs. rewrite Hs in Hv. cbn in Hv.
  split; [congruence|]. split; [exact Hd|]. by apply Hh.
Qed.

Lemma expire_timer_handle s x :
  wf s -> x ∈ timers s -> action x = Expire -> tid x = isTypingTimeoutID s.
Proof.
  intros (_ & _ & Hall & _) Hx Ha.
  rewrite Forall_forall in Hall. destruct (Hall x Hx) as (_ & Hk).
  by rewrite Ha in Hk.
Qed.

(** After a pending update of the debounce hook fired, the timers are the
    others. *)
Lemma fire_settle_timers tm s v :
  settled s -> action tm = Settle v ->
  timers (fst (commit (fire tm s)))
  = filter (fun x => tid x <> tid tm) (timers s).
Proof.
  intros Hs Ha.
  destruct (commit_timers_same (fire tm s) (current_deps s)) as (Ht & _).
  - unfold fire. rewrite Ha. exact Hs.
  - unfold fire. rewrite Ha. reflexivity.
  - rewrite Ht. apply fire_timers.
Qed.

(** After the expiry timer fired on a lowered flag, likewise. *)
Lemma fire_expire_idle_timers tm s :
  settled s -> action tm = Expire -> isTyping s = false ->
  timers (fst (commit (fire tm s)))
  = filter (fun x => tid x <> tid tm) (timers s).
Proof.
  intros Hs Ha Hty.
  destruct (commit_timers_same (fire tm s) (current_deps s)) as (Ht & _).
  - unfold fire. rewrite Ha. exact Hs.
  - unfold fire. rewrite Ha. cbn. by rewrite Hty.
  - rewrite Ht. apply fire_timers.
Qed.

Lemma commit_timers_new s :
  changed dep_isTyping s = true ->
  mkTimer (nextTimerId s) (now s + 1000) (Settle (isTyping s))
    ∈ timers (fst (commit s)).
Proof.
  intros Hc. unfold commit, useDebounce_effect. cbn [fst]. rewrite Hc.
  destruct (debounceHandler s); cbn; apply elem_of_app; right; left.
Qed.


Lemma expiring_keep t0 s tm :
  expiring t0 s -> tm ∈ timers s ->
  expiring t0 (fst (commit (fire tm s))).
Proof.
  intros (Hwf & Hup & Hdown) Hin.
  split; [by apply wf_fire|].
  rewrite commit_isTyping, commit_debouncedTyping, commit_now.
  destruct (action tm) as [|v] eqn:Ha.
  - (* the expiry timer *)
    assert (Hty' : isTyping (fire tm s) = false)
      by (unfold fire; rewrite Ha; reflexivity).
    rewrite Hty'. split; [discriminate|]. intros _.
    destruct (isTyping s) eqn:Hty.
    + destruct (Hup eq_refl) as (Hnow & _ & Hdl).
      assert (Hch : changed dep_isTyping (fire tm s) = true).
      { unfold changed, fire. rewrite Ha. cbn.
        destruct Hwf as (Hs & _). unfold settled in Hs. rewrite Hs. cbn.
        rewrite Hty. reflexivity. }
      pose proof (commit_timers_new _ Hch) as Hnew. rewrite Hty' in Hnew.
      split.
      * intros x Hx. apply commit_timers_elem in Hx as [Hx| ->].
        -- rewrite fire_timers in Hx.
           apply list_elem_of_filter in Hx as (_ & Hx).
           specialize (Hdl x Hx). lia.
        -- specialize (Hdl tm Hin). unfold fire. rewrite Ha. cbn. lia.
      * intros _. eexists. split; [exact Hnew|reflexivity].
    + destruct (Hdown eq_refl) as (Hdl & Hpend).
      rewrite (fire_expire_idle_timers tm s (proj1 Hwf) Ha Hty).
      split.
      * intros x Hx. apply list_elem_of_filter in Hx as (_ & Hx). by apply Hdl.
      * unfold fire. rewrite Ha. cbn. intros Hdeb.
        destruct (Hpend Hdeb) as (x & Hx & Hax). exists x.
        split; [|exact Hax]. apply list_elem_of_filter. split; [|exact Hx].
        destruct (settle_timer_value s x false Hwf Hx Hax) as (_ & _ & Hne).
        rewrite (expire_timer_handle s tm Hwf Hin Ha). exact Hne.
  - (* the pending update of the debounce hook *)
    destruct (settle_timer_value s tm v Hwf Hin Ha) as (Hv & _ & Hne).
    rewrite (fire_settle_timers tm s v (proj1 Hwf) Ha).
    unfold fire. rewrite Ha. cbn. split.
    + intros Hty. destruct (Hup Hty) as (Hnow & (x & Hx & Hax) & Hdl).
      split; [specialize (Hdl tm Hin); lia|]. split.
      * exists x. split; [|exact Hax]. apply list_elem_of_filter.
        split; [|exact Hx].
        rewrite (expire_timer_handle s x Hwf Hx Hax). congruence.
      * intros y Hy. apply list_elem_of_filter in Hy as (_ & Hy). by apply Hdl.
    + intros Hty. destruct (Hdown Hty) as (Hdl & _). split.
      * intros y Hy. apply list_elem_of_filter in Hy as (_ & Hy). by apply Hdl.
      * intros Hdeb. congruence.
Qed.


(** Time passing keeps the invariant of reachable states. *)
Lemma wf_advance fuel t s s' o :
  wf s -> advance fuel t s = Some (s', o) -> wf s'.
Proof.
  intros Hwf Ha.
  destruct (advance_invariant wf t
              (fun s0 tm H _ _ => wf_fire tm s0 H) fuel s s' o Hwf Ha)
    as (s0 & (Hs & Hnd & Hall & Hok) & _ & ->).
  split; [exact Hs|]. split; [exact Hnd|]. split; [|exact Hok].
  rewrite Forall_forall in Hall. apply Forall_forall. intros x Hx.
  destruct (Hall x Hx) as (Hb & Hk). split; [exact Hb|].
  destruct (action x); [exact Hk|]. cbn.
  destruct Hk as (? & ? & ?). repeat split; try assumption. lia.
Qed.

(** *** The state a keystroke leaves *)

Lemma filter_is_Expire_nil (l : list Timer) :
  (forall x, x ∈ l -> action x <> Expire) -> List.filter is_Expire l = [].
Proof.
  intros H. induction l as [|x l IH]; [reflexivity|]. cbn.
  assert (Hx : is_Expire x = false).
  { unfold is_Expire. specialize (H x ltac:(left)).
    destruct (action x); [done|reflexivity]. }
  rewrite Hx. apply IH. intros y Hy. apply H. by right.
Qed.

Lemma keystroke_timers v s :
  v <> [] ->
  timers (handleInputChange v s)
  = filter (fun tm => tid tm <> isTypingTimeoutID s) (timers s)
    ++ [mkTimer (nextTimerId s) (now s + 5000) Expire].
Proof. destruct v; [done|reflexivity]. Qed.

Lemma keystroke_fields v s :
  v <> [] ->
  newMessage (handleInputChange v s) = v /\
  isTyping (handleInputChange v s) = true /\
  isTypingTimeoutID (handleInputChange v s) = nextTimerId s /\
  nextTimerId (handleInputChange v s) = nextTimerId s + 1 /\
  now (handleInputChange v s) = now s /\
  debounceHandler (handleInputChange v s) = debounceHandler s /\
  committed (handleInputChange v s) = committed s /\
  debouncedTyping (handleInputChange v s) = debouncedTyping s /\
  data (handleInputChange v s) = data s /\
  props (handleInputChange v s) = props s.
Proof. destruct v; [done|]. repeat split; reflexivity. Qed.

(** Exactly one expiry timer is armed after a keystroke: the new one. *)
Lemma keystroke_expiry v s :
  wf s -> v <> [] ->
  expiry_timers (fst (step s (InputChange v)))
  = [mkTimer (nextTimerId s) (now s + 5000) Expire].
Proof.
  intros Hwf Hv. pose proof Hwf as (Hs & Hnd & Hall & (Hid & Hh & Hf)).
  rewrite Forall_forall in Hall.
  assert (Hfree : forall P `{!forall x, Decision (P x)},
    List.filter is_Expire
      (filter P (filter (fun tm => tid tm <> isTypingTimeoutID s) (timers s)))
    = []).
  { intros P HP. apply filter_is_Expire_nil. intros x Hx.
    apply list_elem_of_filter in Hx as (_ & Hx).
    apply list_elem_of_filter in Hx as (Hne & Hx).
    intros Ha. apply Hne. by apply (expire_timer_handle s x Hwf Hx Ha). }
  assert (Hfree' :
    List.filter is_Expire
      (filter (fun tm => tid tm <> isTypingTimeoutID s) (timers s)) = []).
  { apply filter_is_Expire_nil. intros x Hx.
    apply list_elem_of_filter in Hx as (Hne & Hx).
    intros Ha. apply Hne. by apply (expire_timer_handle s x Hwf Hx Ha). }
  cbn [step]. unfold expiry_timers, commit, useDebounce_effect. cbn [fst].
  destruct (keystroke_fields v s Hv) as (_ & _ & _ & _ & _ & Hdh & _).
  destruct (changed dep_isTyping (handleInputChange v s)).
  - rewrite Hdh. destruct (debounceHandler s) as [h|] eqn:Eh; cbn;
      rewrite (keystroke_timers v s Hv).
    + destruct (Hh h eq_refl) as (Hhb & _).
      rewrite filter_app, filter_cons_True, filter_nil by (cbn; lia).
      rewrite !List.filter_app, Hfree. reflexivity.
    + rewrite !List.filter_app, Hfree'. reflexivity.
  - cbn. rewrite (keystroke_timers v s Hv), List.filter_app, Hfree'.
    reflexivity.
Qed.


Lemma keystroke_expire_armed v s :
  wf s -> v <> [] ->
  mkTimer (nextTimerId s) (now s + 5000) Expire
    ∈ timers (fst (step s (InputChange v))).
Proof.
  intros Hwf Hv.
  assert (Hin : In (mkTimer (nextTimerId s) (now s + 5000) Expire)
                  (expiry_timers (fst (step s (InputChange v))))).
  { rewrite (keystroke_expiry v s Hwf Hv). by left. }
  apply filter_In in Hin as (Hin & _). by apply list_elem_of_In.
Qed.




End ChatWindowTime.

Section ChatWindowClaims.
Import ChatWindow.
Local Open Scope Z_scope.

(** C5. When the trimmed draft is empty, the submit handler changes no
    state and issues no send; submitting the form does nothing at all. *)
Theorem C5_blank_send_is_noop (s : State) :
  trim (newMessage s) = [] ->
  fst (handleSendMessage s) = s /\
  count is_OutboundSend (snd (handleSendMessage s)) = 0%nat /\
  step s Submit = (s, []).
Proof.
  intros H. rewrite (handleSendMessage_blank s H). cbn.
  split; [reflexivity|]. split; [reflexivity|].
  unfold submitDisabled. rewrite H. cbn. rewrite orb_true_r. reflexivity.
Qed.

(** C10. An input event with the empty value updates the draft and nothing
    else: typing flag, timer handle and every armed timer stay as they
    were, and nothing is emitted. *)
Theorem C10_empty_input_updates_draft_only (s : State) :
  settled s ->
  handleInputChange [] s = setNewMessage [] s /\
  step s (InputChange []) = (setNewMessage [] s, []) /\
  let s' := fst (step s (InputChange [])) in
  newMessage s' = [] /\
  isTyping s' = isTyping s /\
  isTypingTimeoutID s' = isTypingTimeoutID s /\
  timers s' = timers s /\
  expiry_timers s' = expiry_timers s.
Proof.
  intros H.
  assert (E : step s (InputChange []) = (setNewMessage [] s, [])).
  { cbn. apply commit_quiet. exact H. }
  split; [reflexivity|]. split; [exact E|]. rewrite E. cbn.
  repeat split; reflexivity.
Qed.

(** C4, as the code has it.  A render with other props and data -- in
    particular with another conversation id -- leaves the draft, the
    typing flag, the timer handle, the debounced value and every armed
    timer as they were.  The initial values are those of a fresh mount. *)
Theorem C4_id_change_keeps_local_state (s : State) (p : Props) (d : Data) :
  settled s ->
  (let s' := fst (step s (Render p d)) in
   newMessage s' = newMessage s /\
   isTyping s' = isTyping s /\
   isTypingTimeoutID s' = isTypingTimeoutID s /\
   debouncedTyping s' = debouncedTyping s /\
   timers s' = timers s) /\
  local_state_initial (fst (mount p d)).
Proof.
  intros H. split.
  - cbv zeta. cbn [step].
    rewrite commit_newMessage, commit_isTyping, commit_isTypingTimeoutID,
      commit_debouncedTyping.
    repeat split; try reflexivity.
    destruct (commit_timers_same (set_data d (set_props p s)) (current_deps s))
      as (Ht & _); [exact H|reflexivity|exact Ht].
  - unfold local_state_initial, mount, isPending.
    rewrite commit_newMessage, commit_isTyping, commit_sendInFlight.
    repeat split; reflexivity.
Qed.

(** C3, as the code has it.  The read receipt is issued once by every
    render that delivers a conversation object other than the one held --
    the first one after none, the one of another conversation, or a
    refetched one for the conversation still selected -- and once by a
    mount that already has a conversation.  It is not issued by a render
    that keeps the same conversation object, such as one that only
    delivers new messages, by a render that delivers none, nor by any
    event other than a render. *)
Theorem C3_mark_as_read_per_conversation_object (s : State) :
  settled s ->
  (forall e,
     count is_MarkAsRead (snd (step s e)) =
     match e with
     | Render p d =>
         match conversation d with
         | Some c =>
             if bool_decide (conversation_ref <$> conversation (data s)
                             = Some (conversation_ref c))
             then 0%nat else 1%nat
         | None => 0%nat
         end
     | _ => 0%nat
     end) /\
  (forall p d,
     count is_MarkAsRead (snd (mount p d)) =
     match conversation d with Some _ => 1%nat | None => 0%nat end).
Proof.
  intros H. unfold settled in H.
  assert (Hsame : forall s', committed s' = committed s -> data s' = data s ->
            count is_MarkAsRead (snd (commit s')) = 0%nat).
  { intros s' Hc Hd. rewrite commit_count_MarkAsRead. unfold changed.
    rewrite Hc, H. cbn. rewrite Hd.
    rewrite bool_decide_eq_true_2; reflexivity. }
  split.
  - intros e. destruct e as [p d|v| |h|r|]; cbn [step].
    + rewrite commit_count_MarkAsRead. unfold changed. cbn. rewrite H. cbn.
      destruct (conversation d) as [c|]; cbn.
      * destruct (bool_decide _); reflexivity.
      * destruct (negb _); reflexivity.
    + apply Hsame; unfold handleInputChange; destruct (not_str v); reflexivity.
    + destruct (submitDisabled s); [reflexivity|].
      unfold send, handleSendMessage.
      destruct (not_str (trim (newMessage s))).
      * rewrite then_commit_snd, count_app. cbn. by apply Hsame.
      * cbn [mutate]. rewrite then_commit_snd, count_app. cbn. by apply Hsame.
    + destruct (List.find _ _) as [tm|]; [|reflexivity].
      apply Hsame; unfold fire; destruct (action tm); reflexivity.
    + unfold settle. destruct (sendInFlight s) as [f|].
      * destruct r; [unfold onSuccess; cbv zeta|];
          rewrite then_commit_snd, count_app; cbn; by apply Hsame.
      * rewrite then_commit_snd, count_app. cbn. by apply Hsame.
    + by apply Hsame.
  - intros p d. unfold mount. rewrite commit_count_MarkAsRead. cbn.
    destruct (conversation d); reflexivity.
Qed.

(** C7. A typing signal is emitted only in a state whose trimmed draft is
    not empty (and it is always [true]); a mount emits none; along a run
    whose drafts are all empty after trimming no typing signal of any
    value is emitted. *)
Theorem C7_no_typing_signal_on_empty_draft :
  (forall s e b,
     In (TypingChange b) (snd (step s e)) ->
     b = true /\ trim (newMessage (fst (step s e))) <> []) /\
  (forall p d b, ~ In (TypingChange b) (snd (mount p d))) /\
  (forall s es,
     Forall (fun v => trim v = []) (drafts s es) ->
     forall b, ~ In (TypingChange b) (snd (run s es))).
Proof.
  split; [exact step_typing|]. split.
  - intros p d b H. unfold mount in H. apply commit_typing in H as (_ & H).
    rewrite commit_newMessage in H. by apply H.
  - intros s es. revert s. induction es as [|e es IH]; intros s Hd b.
    + intros [].
    + cbn [run]. cbn [drafts] in Hd.
      apply Forall_cons in Hd as (Hhd & Htl).
      destruct (step s e) as [s1 o1] eqn:E1. cbn [fst] in *.
      destruct (run s1 es) as [s2 o2] eqn:E2. cbn [snd].
      rewrite in_app_iff. intros [H|H].
      * assert (H' : In (TypingChange b) (snd (step s e))) by (by rewrite E1).
        apply step_typing in H' as (_ & H'). rewrite E1 in H'. by apply H'.
      * apply (IH s1 Htl b). rewrite E2. exact H.
Qed.

(** C2, as the code has it.  A send of a non-blank draft empties the draft
    at once and marks the call pending.  A rejection, whenever it comes,
    clears the pending flag, keeps the error on the mutation, emits
    nothing and leaves every other part of the state as it is at that
    moment: the draft emptied by the send is not restored. *)
Theorem C2_send_failure (s : State) (e : JSString) :
  settled s ->
  trim (newMessage s) <> [] ->
  let s1 := fst (send s) in
  let r := step s1 (SendSettled (Failed e)) in
  isPending s1 = true /\ newMessage s1 = [] /\
  (forall s' f,
     settled s' -> sendInFlight s' = Some f ->
     step s' (SendSettled (Failed e)) = (set_send None (Some e) s', [])) /\
  isPending (fst r) = false /\
  sendError (fst r) = Some e /\
  newMessage (fst r) = [] /\
  isTyping (fst r) = isTyping s /\
  isTypingTimeoutID (fst r) = isTypingTimeoutID s /\
  timers (fst r) = timers s /\
  snd r = [].
Proof.
  intros Hs Ht.
  assert (Hfail : forall s' f,
            settled s' -> sendInFlight s' = Some f ->
            step s' (SendSettled (Failed e)) = (set_send None (Some e) s', [])).
  { intros s' f Hs' Hf. cbn [step]. rewrite (settle_failed s' f e Hf).
    unfold then_commit. rewrite commit_quiet by exact Hs'. reflexivity. }
  unfold send. rewrite (handleSendMessage_nonblank s Ht).
  unfold then_commit. rewrite commit_quiet by exact Hs. cbn [fst].
  split; [reflexivity|]. split; [reflexivity|]. split; [exact Hfail|].
  erewrite Hfail; [|exact Hs|reflexivity]. cbn.
  repeat split; reflexivity.
Qed.

Lemma awaiting_keep f s e :
  awaiting f s -> bystander e -> awaiting f (fst (step s e)).
Proof.
  intros (Hwf & Hf & Hm & Hid) He.
  split; [by apply wf_step|].
  destruct e as [p d|v| |h|r|]; try done; cbn [step].
  - by rewrite commit_sendInFlight, commit_newMessage,
      commit_isTypingTimeoutID.
  - unfold submitDisabled, isPending. rewrite Hf. done.
  - destruct (List.find _ _) as [tm|]; [|done].
    rewrite commit_sendInFlight, commit_newMessage, commit_isTypingTimeoutID.
    unfold fire. destruct (action tm); done.
Qed.

Lemma awaiting_run f es : forall s,
  awaiting f s -> Forall bystander es -> awaiting f (fst (run s es)).
Proof.
  induction es as [|e es IH]; intros s Hs Hes; [exact Hs|].
  apply Forall_cons in Hes as (He & Hes). cbn [run].
  pose proof (awaiting_keep f s e Hs He) as H1.
  destruct (step s e) as [s1 o1]. cbn [fst] in H1.
  specialize (IH s1 H1 Hes). destruct (run s1 es) as [s2 o2]. exact IH.
Qed.

(** A call in flight stays in flight until an event ends it: renders,
    keystrokes, timers and further submits leave it alone. *)
Lemma inflight_keep f s e :
  sendInFlight s = Some f -> Liveness.ends_call e = false ->
  sendInFlight (fst (step s e)) = Some f.
Proof.
  intros Hf He.
  destruct e as [p d|v| |h|r|]; try discriminate He; cbn [step].
  - by rewrite commit_sendInFlight.
  - rewrite commit_sendInFlight. unfold handleInputChange.
    destruct (not_str v); exact Hf.
  - unfold submitDisabled, isPending. rewrite Hf. exact Hf.
  - destruct (List.find _ _) as [tm|]; [|exact Hf].
    rewrite commit_sendInFlight. unfold fire. destruct (action tm); exact Hf.
Qed.

Lemma inflight_run f es : forall s,
  wf s -> sendInFlight s = Some f ->
  Forall (fun e => Liveness.ends_call e = false) es ->
  wf (fst (run s es)) /\ sendInFlight (fst (run s es)) = Some f.
Proof.
  induction es as [|e es IH]; intros s Hwf Hf Hes; [by split|].
  apply Forall_cons in Hes as (He & Hes). cbn [run].
  pose proof (wf_step s e Hwf) as H1.
  pose proof (inflight_keep f s e Hf He) as H2.
  destruct (step s e) as [s1 o1]. cbn [fst] in H1, H2.
  specialize (IH s1 H1 H2 Hes). destruct (run s1 es) as [s2 o2]. exact IH.
Qed.

(** C6, as the code has it.  A send of a non-blank draft marks the call
    pending at once, issues exactly one outbound send of the draft and
    empties the draft, all at the moment of the send.  The call stays
    pending through any renders, keystrokes, timer firings and further
    submits.  When the server then acknowledges it, the pending flag is
    false, the typing flag is false, the expiry timer held at the moment
    of the send is not armed, [scrollToBottom] has been called (it
    scrolls when the message list is rendered), and the draft is what it
    was just before the acknowledgment.  If nothing was typed since the
    send, that draft is the empty string and no expiry timer is armed at
    all. *)
Theorem C6_send_and_acknowledgment (s : State) :
  wf s ->
  trim (newMessage s) <> [] ->
  let r1 := send s in
  (isPending (fst r1) = true /\
   snd r1 = [PreventDefault; OutboundSend (newMessage s)] /\
   newMessage (fst r1) = [] /\
   (isPending s = false -> step s Submit = r1)) /\
  forall es, Forall (fun e => Liveness.ends_call e = false) es ->
    let s' := fst (run (fst r1) es) in
    let r2 := step s' (SendSettled Ack) in
    isPending s' = true /\
    isPending (fst r2) = false /\
    isTyping (fst r2) = false /\
    armed (isTypingTimeoutID s) (fst r2) = false /\
    In (ScrollToBottom (endRefAttached s')) (snd r2) /\
    newMessage (fst r2) = newMessage s' /\
    (Forall bystander es ->
     newMessage (fst r2) = [] /\ expiry_timers (fst r2) = []).
Proof.
  intros Hwf Ht. pose proof Hwf as (Hs & Hnd & Hall & (Hid & Hh & Hf)).
  set (f := mkInFlight (newMessage s) (isTypingTimeoutID s)).
  assert (E1 : send s =
    (setNewMessage [] (set_send (Some f) None s),
     [PreventDefault; OutboundSend (newMessage s)])).
  { unfold send. rewrite (handleSendMessage_nonblank s Ht).
    unfold then_commit. rewrite commit_quiet by exact Hs. reflexivity. }
  assert (Hwait : awaiting f (setNewMessage [] (set_send (Some f) None s))).
  { split; [|done]. split; [exact Hs|].
    pose proof (handleSendMessage_timers_wf s (conj Hnd (conj Hall
                  (conj Hid (conj Hh Hf))))) as Hw.
    rewrite (handleSendMessage_nonblank s Ht) in Hw. exact Hw. }
  cbv zeta. rewrite E1. cbn [fst snd]. split.
  { split; [reflexivity|]. split; [reflexivity|]. split; [reflexivity|].
    intros Hp. cbn [step]. unfold submitDisabled.
    rewrite Hp, (not_str_false _ Ht). exact E1. }
  intros es Hes.
  destruct Hwait as (Hwf0 & Hf0 & Hm0 & Hid0).
  pose proof (inflight_run f es _ Hwf0 Hf0 Hes) as (Hwf' & Hf').
  assert (Hquiet : Forall bystander es ->
            newMessage (fst (run (setNewMessage []
                                    (set_send (Some f) None s)) es)) = [] /\
            isTypingTimeoutID (fst (run (setNewMessage []
                                    (set_send (Some f) None s)) es))
            = captured_isTypingTimeoutID f).
  { intros Hby.
    pose proof (awaiting_run f es _ (conj Hwf0 (conj Hf0 (conj Hm0 Hid0)))
                  Hby) as (_ & _ & Hm' & Hid').
    by split. }
  set (s' := fst (run (setNewMessage [] (set_send (Some f) None s)) es)) in *.
  split; [unfold isPending; by rewrite Hf'|].
  cbn [step]. rewrite (settle_ack s' f Hf').
  unfold onSuccess. cbv zeta.
  rewrite then_commit_fst, then_commit_snd.
  unfold isPending.
  rewrite commit_sendInFlight, commit_newMessage, commit_isTyping.
  split; [reflexivity|]. split; [reflexivity|].
  destruct Hwf' as (_ & _ & Hall' & (_ & _ & Hcap')).
  rewrite Forall_forall in Hall'.
  destruct (Hcap' f Hf') as (Hlt & _).
  assert (Hin : forall x,
    x ∈ timers (fst (commit
      (clearTimeout (captured_isTypingTimeoutID f)
         (setIsTyping false (set_send None None s'))))) ->
    tid x <> isTypingTimeoutID s /\
    (action x = Expire -> tid x = isTypingTimeoutID s')).
  { intros x Hx. apply commit_timers_elem in Hx as [Hx| ->].
    - cbn in Hx. apply list_elem_of_filter in Hx as (Hne & Hx).
      split; [exact Hne|]. destruct (Hall' x Hx) as (_ & Ha).
      intros Hact. by rewrite Hact in Ha.
    - cbn. cbn in Hlt. split; [lia|discriminate]. }
  split; [|split; [|split]].
  - apply armed_false. intros x Hx. by apply Hin.
  - apply in_or_app. left. left. reflexivity.
  - reflexivity.
  - intros Hby. destruct (Hquiet Hby) as (Hm' & Hid'). split; [exact Hm'|].
    apply expiry_timers_nil. intros x Hx Hact.
    destruct (Hin x Hx) as (Hne & Hexp). apply Hne.
    rewrite (Hexp Hact), Hid'. reflexivity.
Qed.


End ChatWindowClaims.

Lemma C5_blank_send_is_noop_witness :
  ChatWindow.newMessage blank_A = lit "   " /\
  ChatWindow.step blank_A ChatWindow.Submit = (blank_A, []).
Proof.
  split; [reflexivity|].
  apply (C5_blank_send_is_noop blank_A). reflexivity.
Defined.

Lemma C10_empty_input_updates_draft_only_witness :
  ChatWindow.isTyping
    (fst (ChatWindow.step typed_A (ChatWindow.InputChange []))) = true.
Proof.
  apply (C10_empty_input_updates_draft_only typed_A). reflexivity.
Defined.

Lemma C4_id_change_keeps_local_state_witness :
  ChatWindow.newMessage
    (fst (ChatWindow.step typed_A (ChatWindow.Render props_B data_B_loading)))
  = lit "Hello".
Proof.
  apply (C4_id_change_keeps_local_state typed_A props_B data_B_loading).
  reflexivity.
Defined.

(** C4 as stated fails: after the id changes from "A" to "B" the draft typed
    in "A", its typing flag and its timer are still there, also once "B"
    is ready. *)
Lemma C4_state_leaks_across_conversations :
  ChatWindow.conversationId (ChatWindow.props typed_A)
    <> ChatWindow.conversationId props_B /\
  ~ ChatWindow.local_state_initial
      (fst (ChatWindow.step typed_A (ChatWindow.Render props_B data_B_loading))) /\
  ~ ChatWindow.local_state_initial
      (fst (ChatWindow.run typed_A
              [ChatWindow.Render props_B data_B_loading;
               ChatWindow.Render props_B data_B])).
Proof.
  split; [vm_compute; discriminate|].
  split; intros (H & _); vm_compute in H; discriminate.
Qed.

Lemma C3_mark_as_read_per_conversation_object_witness :
  ChatWindow.count ChatWindow.is_MarkAsRead
    (snd (ChatWindow.step loading_B (ChatWindow.Render props_B data_B))) = 1%nat /\
  ChatWindow.count ChatWindow.is_MarkAsRead
    (snd (ChatWindow.step mounted_A (ChatWindow.Render props_A data_A_more)))
  = 0%nat.
Proof.
  split.
  - destruct (C3_mark_as_read_per_conversation_object loading_B eq_refl)
      as (Hstep & _).
    rewrite (Hstep (ChatWindow.Render props_B data_B)). reflexivity.
  - destruct (C3_mark_as_read_per_conversation_object mounted_A eq_refl)
      as (Hstep & _).
    rewrite (Hstep (ChatWindow.Render props_A data_A_more)). reflexivity.
Defined.

(** C3 as stated fails: conversation "A" stays selected and its read
    receipt went out at the mount; a render that brings a new message
    together with a refetched conversation object sends it again. *)
Lemma C3_refetch_reissues_read_receipt :
  ChatWindow.count ChatWindow.is_MarkAsRead
    (snd (ChatWindow.mount props_A data_A)) = 1%nat /\
  ChatWindow.conversationId props_A
    = ChatWindow.conversationId (ChatWindow.props mounted_A) /\
  ChatWindow.count ChatWindow.is_MarkAsRead
    (snd (ChatWindow.step mounted_A
            (ChatWindow.Render props_A MoreExamples.data_A_refetched)))
  = 1%nat.
Proof. repeat split. Qed.

Lemma C7_no_typing_signal_on_empty_draft_witness :
  trim (ChatWindow.newMessage
          (fst (ChatWindow.step typed_A (ChatWindow.TimerFire 3)))) <> [] /\
  ~ In (ChatWindow.TypingChange true)
      (snd (ChatWindow.run mounted_A
              [ChatWindow.InputChange (lit "  "); ChatWindow.TimerFire 3;
               ChatWindow.TimerFire 2; ChatWindow.TimerFire 4])).
Proof.
  destruct C7_no_typing_signal_on_empty_draft as (Hstep & _ & Hrun).
  split.
  - apply (Hstep typed_A (ChatWindow.TimerFire 3) true).
    vm_compute. left. reflexivity.
  - apply (Hrun mounted_A). vm_compute. repeat constructor.
Defined.

Lemma C2_send_failure_witness :
  ChatWindow.newMessage
    (fst (ChatWindow.step (fst (ChatWindow.send typed_A))
            (ChatWindow.SendSettled (ChatWindow.Failed (lit "rejected"))))) = [].
Proof.
  apply (C2_send_failure typed_A (lit "rejected")).
  - reflexivity.
  - vm_compute. discriminate.
Defined.

(** C2 as stated fails: after a rejected send the draft is empty, not the
    text that was submitted. *)
Lemma C2_draft_not_preserved :
  ChatWindow.newMessage typed_A = lit "Hello" /\
  ChatWindow.newMessage
    (fst (ChatWindow.run typed_A
            [ChatWindow.Submit;
             ChatWindow.SendSettled (ChatWindow.Failed (lit "rejected"))]))
  <> ChatWindow.newMessage typed_A.
Proof. split; [reflexivity|]. vm_compute. discriminate. Qed.


Ltac concrete_wf :=
  split; [reflexivity|];
  split; [vm_compute;
          repeat (apply NoDup_cons; split;
                  [let H := fresh in
                   intros H;
                   repeat (apply elem_of_cons in H as [H|H]; [discriminate H|]);
                   by apply elem_of_nil in H|]);
          apply NoDup_nil; exact I|];
  split; [match goal with
          | |- Forall ?P ?l =>
              let l' := eval vm_compute in l in change (Forall P l')
          end;
          repeat (apply Forall_cons; split;
                  [cbv -[Z.lt Z.le Z.add]; repeat split; try reflexivity; lia|]);
          apply Forall_nil; exact I|];
  cbv -[Z.lt Z.le Z.add];
  split; [lia|];
  split; [intros ? [= <-]; lia|intros ? [=]].

Lemma typed_A_wf : ChatWindow.wf typed_A.
Proof. concrete_wf. Qed.

Lemma C6_send_and_acknowledgment_witness :
  ChatWindow.isTyping typed_A = true /\
  ChatWindow.armed (ChatWindow.isTypingTimeoutID typed_A) typed_A = true /\
  ChatWindow.armed (ChatWindow.isTypingTimeoutID typed_A)
    (fst (ChatWindow.step
            (fst (ChatWindow.run (fst (ChatWindow.send typed_A))
                    [ChatWindow.Render props_A data_A_more;
                     ChatWindow.InputChange (lit "again")]))
            (ChatWindow.SendSettled ChatWindow.Ack))) = false /\
  ChatWindow.expiry_timers
    (fst (ChatWindow.step
            (fst (ChatWindow.run (fst (ChatWindow.send typed_A)) []))
            (ChatWindow.SendSettled ChatWindow.Ack))) = [].
Proof.
  split; [reflexivity|]. split; [reflexivity|].
  assert (Hd : trim (ChatWindow.newMessage typed_A) <> [])
    by (vm_compute; discriminate).
  destruct (C6_send_and_acknowledgment typed_A typed_A_wf Hd) as (_ & Hack).
  split.
  - apply (Hack [ChatWindow.Render props_A data_A_more;
                 ChatWindow.InputChange (lit "again")]).
    repeat constructor.
  - apply (Hack []); constructor.
Defined.

(** C6 as stated fails: "Hello" is sent, the user types "again" before
    the server answers; after the acknowledgment the draft is "again",
    not the empty string, and the expiry timer of that keystroke is
    still armed. *)
Lemma C6_keystroke_before_ack :
  trim (ChatWindow.newMessage typed_A) <> [] /\
  let s' := fst (ChatWindow.run typed_A
                   [ChatWindow.Submit; ChatWindow.InputChange (lit "again");
                    ChatWindow.SendSettled ChatWindow.Ack]) in
  ChatWindow.isPending s' = false /\
  ChatWindow.newMessage s' = lit "again" /\
  ChatWindow.newMessage s' <> [] /\
  ChatWindow.isTyping s' = false /\
  ChatWindow.armed (ChatWindow.isTypingTimeoutID s') s' = true /\
  ChatWindow.expiry_timers s' <> [].
Proof.
  split; [vm_compute; discriminate|].
  vm_compute. repeat split; discriminate.
Qed.




(** * Further properties of the code *)

(** ** Notification token and message listener *)

Section FirebaseMore.
Import Firebase.

(** X1. [requestNotificationPermission] yields a token exactly when the
    permission is granted and the token fetch succeeds; it is then the
    fetched token and nothing is logged.  At most one line is ever
    logged. *)
Theorem X1_token_iff_granted_and_fetched (env : Env) (token : JSString) :
  (snd (requestNotificationPermission env) = Fulfilled (Some token) <->
   Notification_requestPermission env = Fulfilled granted /\
   getToken env = Fulfilled token) /\
  (snd (requestNotificationPermission env) = Fulfilled (Some token) ->
   fst (requestNotificationPermission env) = []) /\
  (length (fst (requestNotificationPermission env)) <= 1)%nat.
Proof.
  rewrite requestNotificationPermission_cases, getFCMToken_cases.
  destruct (Notification_requestPermission env) as [[]|e];
    destruct (getToken env) as [t|e']; cbn;
    (split; [split; [intros [= ->] || intros [=]; auto
                    |intros (H1 & H2); congruence]
            |split; [intros H; congruence || reflexivity|lia]]).
Qed.

End FirebaseMore.

Section ListenerProperties.
Import Listener.

Variable Payload : Type.

Lemma resolve_done (r : Firebase.Settled Payload) (payloads : list Payload) :
  fold_left (fun st payload => resolve Payload payload st) payloads (Done r)
  = Done r.
Proof. induction payloads as [|p l IH]; [reflexivity|exact IH]. Qed.

(** X2. The promise of [onMessageListener] is fulfilled with the first
    message delivered and ignores every later one; it stays pending while
    none arrives, and it is rejected only when registering the callback
    throws. *)
Theorem X2_listener_settles_with_first_message
    (registration : Firebase.Settled unit) (payloads later : list Payload) :
  onMessageListener Payload registration payloads =
  match registration, payloads with
  | Firebase.Rejected e, _ => Done (Firebase.Rejected e)
  | Firebase.Fulfilled _, [] => Pending
  | Firebase.Fulfilled _, first :: _ => Done (Firebase.Fulfilled first)
  end /\
  (payloads <> [] ->
   onMessageListener Payload registration (payloads ++ later)
   = onMessageListener Payload registration payloads).
Proof.
  unfold onMessageListener. destruct registration as [[]|e].
  - destruct payloads as [|first l]; cbn.
    + split; [reflexivity|]. intros H. by destruct H.
    + rewrite !resolve_done. split; reflexivity.
  - split; [by destruct payloads|reflexivity].
Qed.

End ListenerProperties.

Lemma X2_listener_settles_with_first_message_witness :
  Listener.onMessageListener JSString (Firebase.Fulfilled tt)
    ([lit "first"; lit "second"] ++ [lit "third"])
  = Listener.Done (Firebase.Fulfilled (lit "first")).
Proof.
  destruct (X2_listener_settles_with_first_message JSString
              (Firebase.Fulfilled tt) [lit "first"; lit "second"] [lit "third"])
    as (Hfirst & Hlater).
  rewrite Hlater by discriminate. exact Hfirst.
Defined.

(** ** Message grouping, across neighbours *)

Section GroupingMore.
Import Grouping.

Variable differenceInSeconds : Z -> Z -> Z.

(** The rendered flags, bubble by bubble. *)
Lemma bubbles_rows (messages : list Message) :
  exists flags,
    bubbles differenceInSeconds messages = Some flags /\
    length flags = length messages /\
    forall i f, flags !! i = Some f ->
      exists cur,
        messages !! i = Some cur /\
        showTimeSeparator_expr differenceInSeconds messages cur (Z.of_nat i)
          = Some (showTimeSeparator f) /\
        continiousTop_expr differenceInSeconds messages cur (Z.of_nat i)
          = Some (continiousTop f) /\
        continiousBottom_expr differenceInSeconds messages cur (Z.of_nat i)
          = Some (continiousBottom f).
Proof.
  destruct (bubbles_lookup differenceInSeconds messages)
    as (flags & Hflags & Hall).
  exists flags. split; [exact Hflags|].
  pose proof Hflags as HF. unfold bubbles in HF. apply mapM_Some_1 in HF.
  split.
  - apply Forall2_length in HF. rewrite length_imap in HF. lia.
  - intros i f Hf.
    destruct (Forall2_lookup_r _ _ _ _ _ HF Hf) as (o & Ho & Hof).
    rewrite list_lookup_imap in Ho.
    destruct (messages !! i) as [cur|] eqn:Hcur; [|done].
    cbn in Ho. injection Ho as <-. exists cur. split; [reflexivity|].
    unfold bubble in Hof.
    destruct (showTimeSeparator_expr _ _ _ _) as [a|]; [|done].
    destruct (continiousTop_expr _ _ _ _) as [b|]; [|done].
    destruct (continiousBottom_expr _ _ _ _) as [c|]; [|done].
    cbn in Hof. injection Hof as <-. auto.
Qed.

(** X3. A bubble is joined to the one below exactly when that one is
    joined to it: [continiousBottom] of message [i] equals [continiousTop]
    of message [i+1]. *)
Theorem X3_joined_both_ways (messages : list Message) :
  exists flags,
    bubbles differenceInSeconds messages = Some flags /\
    length flags = length messages /\
    forall i f g,
      flags !! i = Some f -> flags !! S i = Some g ->
      continiousBottom f = continiousTop g.
Proof.
  destruct (bubbles_rows messages) as (flags & Hflags & Hlen & Hrows).
  exists flags. split; [exact Hflags|]. split; [exact Hlen|].
  intros i f g Hf Hg.
  destruct (Hrows i f Hf) as (cur & Hcur & _ & _ & Hbot).
  destruct (Hrows (S i) g Hg) as (next & Hnext & _ & Htop & _).
  pose proof (lookup_lt_Some _ _ _ Hnext) as Hlt.
  unfold continiousBottom_expr in Hbot. unfold continiousTop_expr in Htop.
  destruct (Z.ltb_spec (Z.of_nat i) (Z.of_nat (length messages) - 1));
    [|lia].
  destruct (Z.gtb_spec (Z.of_nat (S i)) 0); [|lia].
  rewrite at_index_succ in Hbot. rewrite at_index_pred in Htop by lia.
  replace (i + 1)%nat with (S i) in Hbot by lia.
  replace (S i - 1)%nat with i in Htop by lia.
  rewrite Hnext in Hbot. rewrite Hcur in Htop. cbn in Hbot, Htop.
  unfold str_eq in *.
  destruct (decide (recipientId next = recipientId cur)) as [E|E].
  - rewrite bool_decide_eq_true_2 in Hbot by exact E.
    rewrite bool_decide_eq_true_2 in Htop by (symmetry; exact E).
    cbn in Hbot, Htop. congruence.
  - rewrite bool_decide_eq_false_2 in Hbot by exact E.
    rewrite bool_decide_eq_false_2 in Htop by (intros E'; by apply E).
    congruence.
Qed.

(** X4. No bubble has both a time separator above it and a joined top; the
    first bubble has neither, and the last bubble has no joined bottom. *)
Theorem X4_flags_at_the_edges (messages : list Message) :
  exists flags,
    bubbles differenceInSeconds messages = Some flags /\
    (forall i f, flags !! i = Some f ->
       showTimeSeparator f = true -> continiousTop f = false) /\
    (forall f, flags !! 0%nat = Some f ->
       showTimeSeparator f = false /\ continiousTop f = false) /\
    (forall f, flags !! (length messages - 1)%nat = Some f ->
       continiousBottom f = false).
Proof.
  destruct (bubbles_rows messages) as (flags & Hflags & Hlen & Hrows).
  exists flags. split; [exact Hflags|]. split; [|split].
  - intros i f Hf Hsep.
    destruct (Hrows i f Hf) as (cur & Hcur & Hs & Ht & _).
    unfold showTimeSeparator_expr in Hs. unfold continiousTop_expr in Ht.
    destruct (Z.of_nat i >? 0)%Z; [|congruence].
    destruct (at_index messages (Z.of_nat i - 1)) as [prev|]; [|done].
    cbn in Hs, Ht. injection Hs as Hs. rewrite Hsep in Hs.
    rewrite Z.gtb_ltb, Z.ltb_lt in Hs.
    destruct (str_eq (recipientId prev) (recipientId cur)); [|congruence].
    cbn in Ht. injection Ht as <-. apply Z.ltb_ge. lia.
  - intros f Hf. destruct (Hrows 0%nat f Hf) as (cur & _ & Hs & Ht & _).
    unfold showTimeSeparator_expr in Hs. unfold continiousTop_expr in Ht.
    change (Z.of_nat 0 >? 0)%Z with false in Hs, Ht.
    split; congruence.
  - intros f Hf.
    destruct (Hrows _ f Hf) as (cur & Hcur & _ & _ & Hb).
    pose proof (lookup_lt_Some _ _ _ Hcur) as Hlt.
    unfold continiousBottom_expr in Hb.
    destruct (Z.ltb_spec (Z.of_nat (length messages - 1))
                (Z.of_nat (length messages) - 1)); [lia|congruence].
Qed.

End GroupingMore.

(** ** What is rendered *)

Section ViewProperties.
Import ChatWindow.
Import View.

Variable differenceInSeconds : Z -> Z -> Z.

(** The rows of a thread, one for each message. *)
Lemma rows_total (user : option JSString) (messages : list Message) :
  exists rows,
    mapM (fun row => row)
      (imap (message_bubble differenceInSeconds user messages) messages)
    = Some rows /\
    length rows = length messages /\
    forall i r, rows !! i = Some r ->
      exists cur f,
        messages !! i = Some cur /\
        bubble differenceInSeconds messages i cur = Some f /\
        r = mkBubble (Grouping.id cur) (isCurrentUser_expr user cur) f.
Proof.
  destruct (mapM (fun row => row)
              (imap (message_bubble differenceInSeconds user messages) messages))
    as [rows|] eqn:E.
  - exists rows. split; [reflexivity|]. apply mapM_Some_1 in E. split.
    + apply Forall2_length in E. rewrite length_imap in E. lia.
    + intros i r Hr.
      destruct (Forall2_lookup_r _ _ _ _ _ E Hr) as (o & Ho & Hor).
      rewrite list_lookup_imap in Ho.
      destruct (messages !! i) as [cur|] eqn:Hcur; [|done].
      cbn in Ho. injection Ho as <-. unfold message_bubble in Hor.
      destruct (bubble differenceInSeconds messages i cur) as [f|] eqn:Hb;
        [|done].
      cbn in Hor. injection Hor as <-. by exists cur, f.
  - exfalso. apply mapM_None_1 in E.
    apply Exists_exists in E as (o & Hin & Ho).
    apply list_elem_of_lookup in Hin as (i & Hi).
    rewrite list_lookup_imap in Hi.
    destruct (messages !! i) as [cur|] eqn:Hcur; [|done].
    cbn in Hi. injection Hi as <-. unfold message_bubble in Ho.
    destruct (bubble_is_Some differenceInSeconds messages i cur Hcur)
      as [f Hf].
    rewrite Hf in Ho. cbn in Ho. done.
Qed.

(** The render, branch by branch. *)
Lemma render_cases (user : option JSString) (s : State) :
  (isConversationLoading (data s) || isMessagesLoading (data s) = true /\
   render differenceInSeconds user s = Some Loading) \/
  (isConversationLoading (data s) || isMessagesLoading (data s) = false /\
   conversation (data s) = None /\
   render differenceInSeconds user s = Some NotFound) \/
  (isConversationLoading (data s) || isMessagesLoading (data s) = false /\
   exists c body,
     conversation (data s) = Some c /\
     render differenceInSeconds user s
     = Some (Chat (recipient_name c) body
               (mkForm (newMessage s) (submitDisabled s)
                  (if isPending s then Spinner else SendIcon))) /\
     ((endRefAttached s = false /\ body = NoMessagesYet) \/
      (endRefAttached s = true /\
       exists m rows,
         messages (data s) = Some m /\
         mapM (fun row => row)
           (imap (message_bubble differenceInSeconds user (items m)) (items m))
         = Some rows /\
         body = Thread rows (recipientTyping (props s))))).
Proof.
  unfold render, endRefAttached.
  destruct (isConversationLoading (data s) || isMessagesLoading (data s));
    [left; done|right].
  destruct (conversation (data s)) as [c|]; [right|left; done].
  split; [reflexivity|]. cbn.
  destruct (messages (data s)) as [m|].
  - destruct (items m) as [|m0 l] eqn:Ei.
    + exists c, NoMessagesYet. split; [reflexivity|]. split; [reflexivity|].
      left. done.
    + destruct (rows_total user (m0 :: l)) as (rows & Hrows & _).
      exists c, (Thread rows (recipientTyping (props s))).
      split; [reflexivity|]. rewrite Hrows. cbn. split; [reflexivity|].
      right. split; [reflexivity|]. exists m, rows. rewrite Ei. done.
  - exists c, NoMessagesYet. split; [reflexivity|]. split; [reflexivity|].
    left. done.
Qed.

(** X5. Rendering never throws.  The loading screen is shown exactly while
    either hook is loading, whatever else is known; "not found" exactly
    when nothing is loading and there is no conversation. *)
Theorem X5_render_branches (user : option JSString) (s : State) :
  exists v,
    render differenceInSeconds user s = Some v /\
    (v = Loading <->
     isConversationLoading (data s) = true \/ isMessagesLoading (data s) = true) /\
    (v = NotFound <->
     isConversationLoading (data s) = false /\
     isMessagesLoading (data s) = false /\
     conversation (data s) = None).
Proof.
  destruct (render_cases user s)
    as [(Hl & ->)|[(Hl & Hc & ->)|(Hl & c & body & Hc & -> & _)]];
    eexists; (split; [reflexivity|]);
    destruct (isConversationLoading (data s)), (isMessagesLoading (data s));
    cbn in Hl; try discriminate Hl; intuition congruence.
Qed.

(** X6. The message thread -- and with it the element [scrollToBottom]
    scrolls to -- is rendered exactly when nothing is loading, the
    conversation is there and there is at least one message; the
    "is typing" line of the recipient is shown exactly when moreover
    [recipientTyping] is set, so never in an empty conversation. *)
Theorem X6_thread_and_typing_line (user : option JSString) (s : State) :
  ((exists r rows t f,
      render differenceInSeconds user s = Some (Chat r (Thread rows t) f))
   <-> endRefAttached s = true) /\
  ((exists r rows f,
      render differenceInSeconds user s = Some (Chat r (Thread rows true) f))
   <-> endRefAttached s = true /\ recipientTyping (props s) = true).
Proof.
  destruct (render_cases user s)
    as [(Hl & E)|[(Hl & Hc & E)|(Hl & c & body & Hc & E & Hb)]].
  - assert (Ha : endRefAttached s = false)
      by (unfold endRefAttached; rewrite Hl; reflexivity).
    rewrite E, Ha. split; split; try (intros (? & ? & ? & ? & [=]));
      try (intros (? & ? & ? & [=])); try discriminate.
    intros ([=] & _).
  - assert (Ha : endRefAttached s = false)
      by (unfold endRefAttached; rewrite Hl, Hc; reflexivity).
    rewrite E, Ha. split; split; try (intros (? & ? & ? & ? & [=]));
      try (intros (? & ? & ? & [=])); try discriminate.
    intros ([=] & _).
  - rewrite E. destruct Hb as [(Ha & ->)|(Ha & m & rows & _ & _ & ->)];
      rewrite Ha.
    + split; split; try (intros (? & ? & ? & ? & [=]));
        try (intros (? & ? & ? & [=])); try discriminate.
      intros ([=] & _).
    + split; split.
      * reflexivity.
      * intros _. by eexists _, _, _, _.
      * intros (? & ? & ? & [= _ _ Ht _]). by split.
      * intros (_ & ->). by eexists _, _, _.
Qed.

(** X7. A rendered thread has one row for each message, in order: row [i]
    is keyed by the id of message [i], carries the grouping flags computed
    for it, and is marked as the current user's exactly when a user is
    signed in whose id is the message's sender. *)
Theorem X7_thread_rows (user : option JSString) (s : State)
    (r : JSString) (rows : list Bubble) (t : bool) (f : Form) :
  render differenceInSeconds user s = Some (Chat r (Thread rows t) f) ->
  exists m flags,
    messages (data s) = Some m /\
    bubbles differenceInSeconds (items m) = Some flags /\
    length rows = length (items m) /\
    forall i row, rows !! i = Some row ->
      exists cur,
        items m !! i = Some cur /\
        bubble_key row = Grouping.id cur /\
        flags !! i = Some (bubble_flags row) /\
        (bubble_isCurrentUser row = true <-> user = Some (senderId cur)).
Proof.
  intros E.
  destruct (render_cases user s)
    as [(Hl & E')|[(Hl & Hc & E')|(Hl & c & body & Hc & E' & Hb)]];
    rewrite E' in E; try discriminate.
  injection E as _ Hbody _.
  destruct Hb as [(_ & ->)|(_ & m & rows' & Hm & Hrows & ->)];
    [discriminate Hbody|].
  injection Hbody as -> _.
  destruct (rows_total user (items m)) as (rows0 & Hrows0 & Hlen & Hall).
  rewrite Hrows in Hrows0. injection Hrows0 as <-.
  destruct (bubbles_lookup differenceInSeconds (items m))
    as (flags & Hflags & Hfl).
  exists m, flags. split; [exact Hm|]. split; [exact Hflags|].
  split; [exact Hlen|]. intros i row Hrow.
  destruct (Hall i row Hrow) as (cur & fl & Hcur & Hb & ->).
  exists cur. split; [exact Hcur|]. split; [reflexivity|].
  destruct (Hfl i cur Hcur) as (fl' & Hfl' & Hb'). cbn.
  split; [congruence|].
  unfold isCurrentUser_expr, str_eq. destruct user as [uid|].
  - rewrite bool_decide_eq_true. split; [intros ->; reflexivity|].
    by intros [= ->].
  - split; discriminate.
Qed.

End ViewProperties.

Lemma X7_thread_rows_witness :
  exists m flags,
    ChatWindow.messages (ChatWindow.data mounted_A) = Some m /\
    Grouping.bubbles Grouping.differenceInSeconds_datefns (ChatWindow.items m)
    = Some flags /\
    length flags = 2%nat.
Proof.
  destruct (X7_thread_rows Grouping.differenceInSeconds_datefns
              (Some (lit "ann")) mounted_A _ _ _ _ eq_refl)
    as (m & flags & Hm & Hflags & _).
  exists m, flags. split; [exact Hm|]. split; [exact Hflags|].
  vm_compute in Hm. injection Hm as <-. vm_compute in Hflags.
  injection Hflags as <-. reflexivity.
Defined.

(** ** The send path *)

Section SendProperties.
Import ChatWindow.
Import Liveness.
Local Open Scope Z_scope.

Lemma trimStart_nil_iff (v : JSString) :
  trimStart v = [] <-> Forall (fun c => isWhiteSpace c = true) v.
Proof.
  induction v as [|c v IH]; cbn; [done|].
  destruct (isWhiteSpace c) eqn:E.
  - rewrite IH. rewrite Forall_cons. tauto.
  - split; [discriminate|]. intros H. apply Forall_cons in H as (H & _).
    congruence.
Qed.

Lemma trimStart_all_blank (v : JSString) :
  Forall (fun c => isWhiteSpace c = true) (trimStart v) ->
  Forall (fun c => isWhiteSpace c = true) v.
Proof.
  induction v as [|c v IH]; cbn; [done|].
  destruct (isWhiteSpace c) eqn:E; [|done].
  intros H. apply Forall_cons. auto.
Qed.

Lemma trim_nil_iff (v : JSString) :
  trim v = [] <-> Forall (fun c => isWhiteSpace c = true) v.
Proof.
  unfold trim, trimEnd. split.
  - intros H. apply (f_equal (@rev N)) in H. rewrite rev_involutive in H.
    cbn in H. apply trimStart_nil_iff in H.
    apply trimStart_all_blank. apply Forall_forall. intros c Hc.
    rewrite Forall_forall in H. apply H.
    apply list_elem_of_In. rewrite <- in_rev. by apply list_elem_of_In.
  - intros H. apply trimStart_nil_iff in H. rewrite H. reflexivity.
Qed.

Lemma trim_visible (v : JSString) : trim v <> [] <-> Exists visible v.
Proof.
  rewrite trim_nil_iff. unfold visible. induction v as [|c v IH].
  - split; [intros H; by destruct H|]. intros H. by apply Exists_nil in H.
  - rewrite Forall_cons, Exists_cons. destruct (isWhiteSpace c) eqn:E.
    + rewrite <- IH. split; [|intros [H|H] (_ & H'); [discriminate|auto]].
      intros H. right. intros H'. apply H. auto.
    + split; [auto|]. intros _ (H & _). discriminate.
Qed.

(** What a step sends, and what it does to the pending flag. *)
Lemma step_flight (s : State) (e : Event) :
  (ends_call e = true /\
   (forall t, ~ In (OutboundSend t) (snd (step s e))) /\
   isPending (fst (step s e)) = false) \/
  (ends_call e = false /\
   (forall t, ~ In (OutboundSend t) (snd (step s e))) /\
   isPending (fst (step s e)) = isPending s /\
   (e = Submit -> submitDisabled s = true)) \/
  (e = Submit /\ submitDisabled s = false /\
   snd (step s e)
   = [PreventDefault; OutboundSend (newMessage s)]
     ++ snd (commit (setNewMessage []
                       (set_send (Some (mkInFlight (newMessage s)
                                          (isTypingTimeoutID s))) None s))) /\
   newMessage (fst (step s e)) = [] /\
   isPending (fst (step s e)) = true).
Proof.
  assert (Hc : forall s' t, ~ In (OutboundSend t) (snd (commit s'))).
  { intros s' t H.
    apply commit_output in H as [(H & _)|[H|H]]; discriminate H. }
  destruct e as [p d|v| |h|r|]; cbn [step ends_call].
  - right. left. split; [reflexivity|]. split; [apply Hc|].
    split; [by rewrite commit_isPending|discriminate].
  - right. left. split; [reflexivity|]. split; [apply Hc|].
    split; [|discriminate]. rewrite commit_isPending.
    unfold handleInputChange. destruct (not_str v); reflexivity.
  - destruct (submitDisabled s) eqn:Ed.
    + right. left. split; [reflexivity|]. split; [intros t []|]. done.
    + right. right. split; [reflexivity|]. split; [reflexivity|].
      unfold submitDisabled in Ed. apply orb_false_iff in Ed as (_ & Ed).
      unfold send, handleSendMessage. rewrite Ed. cbn [mutate].
      rewrite then_commit_snd, then_commit_fst, commit_newMessage,
        commit_isPending.
      done.
  - right. left. split; [reflexivity|].
    destruct (List.find _ _) as [tm|]; [|split; [intros t []|done]].
    split; [apply Hc|]. split; [|discriminate]. rewrite commit_isPending.
    unfold fire. destruct (action tm); reflexivity.
  - left. split; [reflexivity|]. unfold settle.
    destruct (sendInFlight s) as [f|] eqn:Ef.
    + destruct r; [unfold onSuccess, scrollToBottom; cbv zeta|];
        rewrite then_commit_snd, then_commit_fst, commit_isPending;
        (split; [|reflexivity]); intros t H; apply in_app_or in H as [H|H];
        try (by apply Hc in H); cbn in H; intuition discriminate.
    + rewrite then_commit_snd, then_commit_fst, commit_isPending.
      split; [|unfold isPending; by rewrite Ef].
      intros t H. by apply Hc in H.
  - left. split; [reflexivity|]. split; [apply Hc|].
    by rewrite commit_isPending.
Qed.

(** X8. Submitting the form sends something exactly when no send is
    pending and the draft holds at least one code unit that is not white
    space. *)
Theorem X8_send_needs_visible_text (s : State) :
  (exists t, In (OutboundSend t) (snd (step s Submit))) <->
  isPending s = false /\ Exists visible (newMessage s).
Proof.
  rewrite <- trim_visible. unfold submitDisabled.
  destruct (step_flight s Submit)
    as [(He & _)|[(_ & Hno & _ & Hd)|(_ & Hd & Hout & _)]].
  - discriminate He.
  - specialize (Hd eq_refl). unfold submitDisabled in Hd. split.
    + intros (t & Ht). by apply Hno in Ht.
    + intros (Hp & Hv). rewrite Hp, (not_str_false _ Hv) in Hd.
      discriminate Hd.
  - unfold submitDisabled in Hd. apply orb_false_iff in Hd as (Hp & Hv).
    split.
    + intros _. split; [exact Hp|]. intros E. rewrite E in Hv. discriminate Hv.
    + intros _. exists (newMessage s). rewrite Hout. right. left. reflexivity.
Qed.

(** X9. Whatever is sent is the draft as typed, not trimmed, and it is not
    blank; it is sent by a submit while nothing is pending, and that
    submit empties the draft and raises the pending flag.  Along any run
    no blank text is ever sent. *)
Theorem X9_what_is_sent :
  (forall s e t,
     In (OutboundSend t) (snd (step s e)) ->
     e = Submit /\ t = newMessage s /\ trim t <> [] /\
     isPending s = false /\
     newMessage (fst (step s e)) = [] /\
     isPending (fst (step s e)) = true) /\
  (forall es s t, In (OutboundSend t) (snd (run s es)) -> trim t <> []).
Proof.
  assert (Hstep : forall s e t,
     In (OutboundSend t) (snd (step s e)) ->
     e = Submit /\ t = newMessage s /\ trim t <> [] /\
     isPending s = false /\
     newMessage (fst (step s e)) = [] /\
     isPending (fst (step s e)) = true).
  { intros s e t Ht.
    destruct (step_flight s e)
      as [(_ & Hno & _)|[(_ & Hno & _)|(He & Hd & Hout & Hm & Hp)]];
      try (by apply Hno in Ht).
    unfold submitDisabled in Hd. apply orb_false_iff in Hd as (Hp0 & Hv).
    rewrite Hout in Ht. cbn in Ht. destruct Ht as [Ht|[Ht|Ht]].
    - discriminate Ht.
    - injection Ht as <-. repeat split; try assumption.
      intros E. rewrite E in Hv. discriminate Hv.
    - apply commit_output in Ht as [(Ht & _)|[Ht|Ht]]; discriminate Ht. }
  split; [exact Hstep|].
  induction es as [|e es IH]; intros s t; cbn [run]; [intros []|].
  destruct (step s e) as [s1 o1] eqn:E1.
  destruct (run s1 es) as [s2 o2] eqn:E2. cbn [snd].
  intros H. apply in_app_or in H as [H|H].
  - assert (H' : In (OutboundSend t) (snd (step s e))) by (by rewrite E1).
    by apply Hstep in H' as (_ & _ & H' & _).
  - apply (IH s1 t). by rewrite E2.
Qed.

(** X10. At most one send is in flight: along any run, the number of sends
    issued is at most the number of events that end a call (an answer or
    a reset), plus one if nothing was pending at the start. *)
Theorem X10_one_send_in_flight (es : list Event) (s : State) :
  (count is_OutboundSend (snd (run s es))
   <= (if isPending s then 0 else 1) + length (List.filter ends_call es))%nat.
Proof.
  revert s. induction es as [|e es IH]; intros s; cbn [run List.filter].
  { cbn. lia. }
  specialize (IH (fst (step s e))).
  assert (Hcommit : forall s', count is_OutboundSend (snd (commit s')) = 0%nat)
    by exact commit_count_OutboundSend.
  destruct (step_flight s e)
    as [(He & Hno & Hp)|[(He & Hno & Hp & _)|(-> & Hd & Hout & _ & Hp)]].
  - assert (H0 : count is_OutboundSend (snd (step s e)) = 0%nat).
    { apply count_zero_iff. intros x Hx. destruct x; try reflexivity.
      by apply Hno in Hx. }
    rewrite He. destruct (step s e) as [s1 o1]. cbn [fst snd] in *.
    destruct (run s1 es) as [s2 o2]. cbn [snd] in *.
    rewrite count_app, H0, Hp in *. cbn [length].
    destruct (isPending s); lia.
  - assert (H0 : count is_OutboundSend (snd (step s e)) = 0%nat).
    { apply count_zero_iff. intros x Hx. destruct x; try reflexivity.
      by apply Hno in Hx. }
    rewrite He. destruct (step s e) as [s1 o1]. cbn [fst snd] in *.
    destruct (run s1 es) as [s2 o2]. cbn [snd] in *.
    rewrite count_app, H0, Hp in *. lia.
  - unfold submitDisabled in Hd. apply orb_false_iff in Hd as (Hp0 & _).
    assert (H1 : count is_OutboundSend (snd (step s Submit)) = 1%nat).
    { rewrite Hout, count_app, Hcommit. reflexivity. }
    cbn [ends_call]. destruct (step s Submit) as [s1 o1]. cbn [fst snd] in *.
    destruct (run s1 es) as [s2 o2]. cbn [snd] in *.
    rewrite count_app, H1. rewrite Hp in IH. rewrite Hp0. lia.
Qed.

End SendProperties.

Lemma X9_what_is_sent_witness :
  trim (lit "Hello") <> [] /\
  ChatWindow.isPending (fst (ChatWindow.step typed_A ChatWindow.Submit)) = true.
Proof.
  destruct X9_what_is_sent as (Hstep & Hrun).
  split.
  - apply (Hrun [ChatWindow.Submit] typed_A). vm_compute. right. left.
    reflexivity.
  - apply (Hstep typed_A ChatWindow.Submit (lit "Hello")). vm_compute.
    right. left. reflexivity.
Defined.

(** ** What the effects emit, event by event *)

Section EffectProperties.
Import ChatWindow.
Import Liveness.
Local Open Scope Z_scope.

(** Every step of a settled component is a handler followed by one
    commit against the dependency values of the state before. *)
Lemma step_handler (s : State) (e : Event) :
  settled s ->
  exists s_h o_h,
    step s e = (fst (commit s_h), o_h ++ snd (commit s_h)) /\
    committed s_h = Some (current_deps s) /\
    data s_h = match e with Render _ d => d | _ => data s end /\
    props s_h = match e with Render p _ => p | _ => props s end /\
    (forall b, ~ In (TypingChange b) o_h) /\
    ~ In MarkAsRead o_h /\
    count is_ScrollToBottom o_h
    = match e with
      | SendSettled Ack => if isPending s then 1%nat else 0%nat
      | _ => 0%nat
      end.
Proof.
  intros Hs. pose proof (commit_quiet s Hs) as Hq.
  assert (Hnoop : step s e = (s, []) ->
            match e with SendSettled Ack => isPending s = false | _ => True end ->
            match e with Render _ _ => False | _ => True end ->
            exists s_h o_h,
              step s e = (fst (commit s_h), o_h ++ snd (commit s_h)) /\
              committed s_h = Some (current_deps s) /\
              data s_h = match e with Render _ d => d | _ => data s end /\
              props s_h = match e with Render p _ => p | _ => props s end /\
              (forall b, ~ In (TypingChange b) o_h) /\
              ~ In MarkAsRead o_h /\
              count is_ScrollToBottom o_h
              = match e with
                | SendSettled Ack => if isPending s then 1%nat else 0%nat
                | _ => 0%nat
                end).
  { intros E Hp Hr. exists s, []. rewrite E, Hq. cbn.
    split; [reflexivity|]. split; [exact Hs|].
    destruct e as [p d|v| |h|[|err]|]; try done; cbn;
      try (unfold isPending in Hp |- *; rewrite Hp); repeat split; auto. }
  destruct e as [p d|v| |h|r|].
  - cbn [step]. exists (set_data d (set_props p s)), []. cbn [app].
    split; [by destruct (commit _)|]. split; [exact Hs|]. repeat split; auto.
  - cbn [step]. exists (handleInputChange v s), []. cbn [app].
    split; [by destruct (commit _)|].
    unfold handleInputChange. destruct (not_str v); cbn;
      (split; [exact Hs|]); repeat split; auto.
  - destruct (submitDisabled s) eqn:Ed.
    + apply Hnoop; [cbn [step]; by rewrite Ed|done..].
    + cbn [step]. rewrite Ed. unfold send, handleSendMessage.
      unfold submitDisabled in Ed.
      apply orb_false_iff in Ed as (_ & Ed). rewrite Ed. cbn [mutate].
      eexists _, _. split.
      { unfold then_commit. destruct (commit _). reflexivity. }
      split; [exact Hs|]. cbn. repeat split; auto; intuition discriminate.
  - destruct (List.find (fun tm => bool_decide (tid tm = h)) (timers s))
      as [tm|] eqn:Ef.
    + cbn [step]. rewrite Ef. exists (fire tm s), []. cbn [app].
      split; [by destruct (commit _)|].
      unfold fire. destruct (action tm); cbn; (split; [exact Hs|]);
        repeat split; auto.
    + apply Hnoop; [cbn [step]; by rewrite Ef|done..].
  - cbn [step]. unfold settle. destruct (sendInFlight s) as [f|] eqn:Ef.
    + destruct r as [|err].
      * unfold onSuccess, scrollToBottom. cbv zeta. eexists _, _. split.
        { unfold then_commit. destruct (commit _). reflexivity. }
        split; [exact Hs|]. unfold isPending. rewrite Ef. cbn.
        repeat split; auto; intuition discriminate.
      * eexists _, _. split.
        { unfold then_commit. destruct (commit _). reflexivity. }
        split; [exact Hs|]. cbn. repeat split; auto.
    + exists s, []. unfold then_commit. rewrite Hq. cbn.
      split; [reflexivity|]. split; [exact Hs|]. unfold isPending.
      rewrite Ef. destruct r; repeat split; auto.
  - cbn [step]. exists (set_send None None s), []. cbn [app].
    split; [by destruct (commit _)|]. split; [exact Hs|]. repeat split; auto.
Qed.

(** X11. The typing callback is called in a step exactly when, in the
    state the step leaves, the debounced typing value has just changed or
    the conversation object has just been replaced, and the debounced
    value is true, a conversation is there, the trimmed draft is not
    empty and a callback was passed. *)
Theorem X11_when_the_typing_callback_fires (s : State) (e : Event) :
  settled s ->
  let s' := fst (step s e) in
  (exists b, In (TypingChange b) (snd (step s e))) <->
  (debouncedTyping s' <> debouncedTyping s \/
   conversation_ref <$> conversation (data s')
     <> conversation_ref <$> conversation (data s)) /\
  debouncedTyping s' = true /\
  conversation (data s') <> None /\
  trim (newMessage s') <> [] /\
  onIsTypingChange (props s') = true.
Proof.
  intros Hs. cbv zeta.
  destruct (step_handler s e Hs)
    as (s_h & o_h & -> & Hc & _ & _ & Hty & _).
  cbn [fst snd].
  rewrite commit_debouncedTyping, commit_data, commit_newMessage, commit_props.
  assert (Hin : (exists b, In (TypingChange b) (o_h ++ snd (commit s_h))) <->
                (exists o, In o (typing_effect s_h))).
  { split.
    - intros (b & Hb). apply in_app_or in Hb as [Hb|Hb]; [by apply Hty in Hb|].
      unfold commit in Hb. cbn [snd] in Hb.
      apply in_app_or in Hb as [Hb|Hb]; [eauto|].
      apply in_app_or in Hb as [Hb|Hb].
      + apply scroll_effect_spec in Hb. discriminate Hb.
      + apply markAsRead_effect_spec in Hb. discriminate Hb.
    - intros (o & Ho). pose proof Ho as Ho'.
      apply typing_effect_spec in Ho' as (-> & _). exists true.
      apply in_or_app. right. unfold commit. cbn [snd]. apply in_or_app.
      by left. }
  rewrite Hin.
  assert (Hch : changed dep_debouncedTyping s_h || changed dep_conversation s_h
                = true <->
                debouncedTyping s_h <> debouncedTyping s \/
                conversation_ref <$> conversation (data s_h)
                  <> conversation_ref <$> conversation (data s)).
  { unfold changed. rewrite Hc. cbn. rewrite orb_true_iff, !negb_true_iff,
      !bool_decide_eq_false.
    split; (intros [H|H]; [left|right]; congruence). }
  split.
  - intros (o & Ho).
    assert (Hc' : changed dep_debouncedTyping s_h
                  || changed dep_conversation s_h = true).
    { unfold typing_effect in Ho. destruct (_ || _); [reflexivity|].
      by destruct Ho. }
    apply typing_effect_spec in Ho as (_ & Hd & Ht & Hcv & Hcb).
    split; [by apply Hch|]. done.
  - intros (Hchg & Hd & Hcv & Ht & Hcb). apply Hch in Hchg.
    exists (TypingChange true). unfold typing_effect.
    rewrite Hchg, Hd, Hcb, (not_str_false _ Ht).
    destruct (conversation (data s_h)); [by left|done].
Qed.

(** X12. Any render that delivers a conversation object other than the one
    held -- the first one, or a refetched one for the same conversation --
    issues the read receipt once; a render that delivers none, or the
    same object, issues nothing. *)
Theorem X12_read_receipt_per_conversation_object
    (s : State) (p : Props) (d : Data) :
  settled s ->
  count is_MarkAsRead (snd (step s (Render p d))) =
  match conversation d with
  | Some c =>
      if bool_decide (conversation_ref <$> conversation (data s)
                      = Some (conversation_ref c))
      then 0%nat else 1%nat
  | None => 0%nat
  end.
Proof.
  intros Hs. cbn [step]. rewrite commit_count_MarkAsRead.
  unfold changed. cbn. unfold settled in Hs. rewrite Hs. cbn.
  destruct (conversation d) as [c|]; cbn.
  - destruct (bool_decide _); reflexivity.
  - destruct (negb _); reflexivity.
Qed.

(** X13. [scrollToBottom] is called once by a render that delivers another
    messages array or another [recipientTyping], once by the
    acknowledgment of the send in flight, and by nothing else: not by a
    keystroke, a failed send or a timer. *)
Theorem X13_when_the_view_scrolls (s : State) (e : Event) :
  settled s ->
  count is_ScrollToBottom (snd (step s e)) =
  match e with
  | Render p d =>
      if bool_decide (messages_ref <$> messages (data s)
                      = messages_ref <$> messages d)
         && bool_decide (recipientTyping (props s) = recipientTyping p)
      then 0%nat else 1%nat
  | SendSettled Ack => if isPending s then 1%nat else 0%nat
  | _ => 0%nat
  end.
Proof.
  intros Hs.
  destruct (step_handler s e Hs)
    as (s_h & o_h & -> & Hc & Hd & Hp & _ & _ & Ho).
  cbn [snd]. rewrite count_app, Ho. unfold commit. cbn [snd].
  rewrite !count_app.
  assert (H1 : count is_ScrollToBottom (typing_effect s_h) = 0%nat).
  { apply count_zero_iff. intros x Hx.
    apply typing_effect_spec in Hx as (-> & _). reflexivity. }
  assert (H2 : count is_ScrollToBottom (markAsRead_effect s_h) = 0%nat).
  { apply count_zero_iff. intros x Hx.
    apply markAsRead_effect_spec in Hx as ->. reflexivity. }
  rewrite H1, H2. unfold scroll_effect, scrollToBottom, changed.
  rewrite Hc. cbn. rewrite Hd, Hp.
  destruct e as [p d|v| |h|[|err]|]; cbn;
    rewrite ?bool_decide_eq_true_2 by reflexivity; cbn;
    try (destruct (isPending s)); try reflexivity.
  all: try (destruct (bool_decide _), (bool_decide _); reflexivity).
  all: try (destruct (negb _ || negb _); reflexivity).
Qed.

End EffectProperties.

Lemma X11_when_the_typing_callback_fires_witness :
  exists b,
    In (ChatWindow.TypingChange b)
      (snd (ChatWindow.step typed_A (ChatWindow.TimerFire 3))).
Proof.
  apply (X11_when_the_typing_callback_fires typed_A (ChatWindow.TimerFire 3)).
  - reflexivity.
  - vm_compute. repeat split; try discriminate. left. discriminate.
Defined.

Lemma X12_read_receipt_per_conversation_object_witness :
  ChatWindow.count ChatWindow.is_MarkAsRead
    (snd (ChatWindow.step mounted_A
            (ChatWindow.Render props_A
               (ChatWindow.mkData
                  (Some (ChatWindow.mkConversation 7 (lit "bob"))) false
                  (ChatWindow.messages data_A) false)))) = 1%nat.
Proof.
  rewrite (X12_read_receipt_per_conversation_object mounted_A props_A _ eq_refl).
  reflexivity.
Defined.

Lemma X13_when_the_view_scrolls_witness :
  ChatWindow.count ChatWindow.is_ScrollToBottom
    (snd (ChatWindow.step mounted_A (ChatWindow.Render props_A data_A_more)))
  = 1%nat.
Proof.
  rewrite (X13_when_the_view_scrolls mounted_A
             (ChatWindow.Render props_A data_A_more) eq_refl).
  reflexivity.
Defined.

(** ** Timers and typing state in every reachable state *)

Section LivenessProperties.
Import ChatWindow.
Import Liveness.
Local Open Scope Z_scope.

Lemma commit_keeps_expire s x :
  timers_wf s -> x ∈ timers s -> action x = Expire ->
  x ∈ timers (fst (commit s)).
Proof.
  intros (_ & Hall & (_ & Hh & _)) Hx Ha. rewrite Forall_forall in Hall.
  destruct (Hall x Hx) as (_ & Hk). rewrite Ha in Hk.
  unfold commit, useDebounce_effect. cbn [fst].
  destruct (changed dep_isTyping s); [|exact Hx].
  destruct (debounceHandler s) as [h|] eqn:Eh; cbn; apply elem_of_app; left;
    [|exact Hx].
  apply list_elem_of_filter. split; [|exact Hx].
  destruct (Hh h eq_refl) as (_ & Hne). congruence.
Qed.

Lemma commit_expire_elem s x :
  x ∈ timers (fst (commit s)) -> action x = Expire -> x ∈ timers s.
Proof.
  intros Hx Ha. apply commit_timers_elem in Hx as [Hx| ->]; [exact Hx|].
  discriminate Ha.
Qed.

(** A commit re-establishes [live] from what the handler left. *)
Lemma commit_live s d :
  timers_wf s -> committed s = Some d ->
  (isTyping s = true -> exists x, x ∈ timers s /\ action x = Expire) ->
  (forall x, x ∈ timers s -> action x = Expire -> deadline x <= now s + 5000) ->
  (dep_isTyping d = isTyping s -> debouncedTyping s <> isTyping s ->
   exists x, x ∈ timers s /\ action x = Settle (isTyping s)) ->
  live (fst (commit s)).
Proof.
  intros Htw Hc Hup Hbound Hlag.
  split; [split; [apply commit_settled|by apply commit_timers_wf]|].
  rewrite commit_isTyping, commit_now, commit_debouncedTyping.
  split; [|split].
  - intros Hty. destruct (Hup Hty) as (x & Hx & Ha). exists x.
    split; [by apply commit_keeps_expire|exact Ha].
  - intros x Hx Ha. apply Hbound; [by apply commit_expire_elem|exact Ha].
  - intros Hne. destruct (changed dep_isTyping s) eqn:Ech.
    + eexists. split; [by apply commit_timers_new|reflexivity].
    + unfold changed in Ech. rewrite Hc in Ech.
      apply negb_false_iff, bool_decide_eq_true in Ech. cbn in Ech.
      destruct (Hlag Ech Hne) as (x & Hx & Ha). exists x. split; [|exact Ha].
      destruct (commit_timers_same s d Hc Ech) as (-> & _). exact Hx.
Qed.

Lemma live_mount p d : live (fst (mount p d)).
Proof.
  split; [apply wf_mount|]. unfold mount.
  rewrite commit_isTyping, commit_now, commit_debouncedTyping. cbn.
  split; [discriminate|]. split; [|done].
  intros x Hx Ha. apply list_elem_of_singleton in Hx as ->.
  discriminate Ha.
Qed.

Lemma live_step s e : live s -> live (fst (step s e)).
Proof.
  intros Hlive. pose proof Hlive as (Hwf & Hup & Hbound & Hlag).
  pose proof Hwf as (Hs & Htw).
  pose proof Htw as (_ & _ & (_ & _ & Hfl)).
  destruct e as [p d|v| |h|r|]; cbn [step].
  - apply (commit_live _ (current_deps s)); [exact Htw|exact Hs|..]; auto.
  - destruct v as [|c v].
    { apply (commit_live _ (current_deps s)); [exact Htw|exact Hs|..]; auto. }
    assert (Hv : c :: v <> []) by discriminate.
    destruct (keystroke_fields _ s Hv)
      as (_ & Hty & _ & _ & Hnow & _ & Hcm & Hdeb & _).
    apply (commit_live _ (current_deps s));
      [by apply handleInputChange_timers_wf|by rewrite Hcm|..];
      rewrite ?Hty, ?Hnow, ?Hdeb, (keystroke_timers _ s Hv).
    + intros _. eexists. split; [apply elem_of_app; right; left|reflexivity].
    + intros x Hx Ha. apply elem_of_app in Hx as [Hx|Hx].
      * apply list_elem_of_filter in Hx as (Hne & Hx).
        by rewrite (expire_timer_handle s x Hwf Hx Ha) in Hne.
      * apply list_elem_of_singleton in Hx as ->. cbn. lia.
    + cbn. intros Hsame Hne. rewrite Hsame in Hlag.
      destruct (Hlag Hne) as (x & Hx & Ha).
      exists x. split; [|exact Ha]. apply elem_of_app. left.
      apply list_elem_of_filter. split; [|exact Hx].
      by destruct (settle_timer_value s x _ Hwf Hx Ha) as (_ & _ & Hne').
  - destruct (submitDisabled s); [exact Hlive|]. unfold send.
    pose proof (handleSendMessage_timers_wf s Htw) as Htw'.
    unfold handleSendMessage in *.
    destruct (not_str (trim (newMessage s))); cbn [mutate fst] in *;
      rewrite then_commit_fst;
      (apply (commit_live _ (current_deps s)); [exact Htw'|exact Hs|..]); auto.
  - destruct (List.find _ _) as [tm|] eqn:Ef; [|exact Hlive].
    apply find_some in Ef as (Hin & _). apply list_elem_of_In in Hin.
    assert (Hnow : now s <= now (fire tm s)).
    { unfold fire. destruct (action tm); cbn; lia. }
    assert (Hcm : committed (fire tm s) = Some (current_deps s)).
    { unfold fire. destruct (action tm); exact Hs. }
    apply (commit_live _ (current_deps s));
      [by apply fire_timers_wf|exact Hcm|..]; rewrite fire_timers.
    + intros Hty. destruct (action tm) as [|b] eqn:Ha.
      { unfold fire in Hty. rewrite Ha in Hty. discriminate Hty. }
      assert (Hty' : isTyping s = true)
        by (unfold fire in Hty; by rewrite Ha in Hty).
      destruct (Hup Hty') as (x & Hx & Hax). exists x. split; [|exact Hax].
      apply list_elem_of_filter. split; [|exact Hx].
      destruct (settle_timer_value s tm b Hwf Hin Ha) as (_ & _ & Hne).
      by rewrite (expire_timer_handle s x Hwf Hx Hax).
    + intros x Hx Hax. apply list_elem_of_filter in Hx as (_ & Hx).
      specialize (Hbound x Hx Hax). lia.
    + cbn. intros Hsame Hne. destruct (action tm) as [|b] eqn:Ha.
      * assert (Hty : isTyping (fire tm s) = false)
          by (unfold fire; by rewrite Ha).
        assert (Hdeb : debouncedTyping (fire tm s) = debouncedTyping s)
          by (unfold fire; by rewrite Ha).
        rewrite Hty in *. rewrite Hdeb in Hne. rewrite Hsame in Hlag.
        destruct (Hlag Hne) as (x & Hx & Hax). exists x. split; [|exact Hax].
        apply list_elem_of_filter. split; [|exact Hx].
        destruct (settle_timer_value s x _ Hwf Hx Hax) as (_ & _ & Hne').
        by rewrite (expire_timer_handle s tm Hwf Hin Ha).
      * destruct (settle_timer_value s tm b Hwf Hin Ha) as (Hb & _).
        exfalso. apply Hne. unfold fire. rewrite Ha. cbn. exact Hb.
  - unfold settle. destruct (sendInFlight s) as [f|] eqn:Ef.
    2: { rewrite then_commit_fst. by rewrite (commit_quiet s Hs). }
    pose proof (settle_timers_wf r s Htw) as Htw'. unfold settle in Htw'.
    rewrite Ef in Htw'.
    destruct r as [|err]; [unfold onSuccess in *; cbv zeta in *|];
      cbn [fst] in Htw'; rewrite then_commit_fst;
      (apply (commit_live _ (current_deps s)); [exact Htw'|exact Hs|..]);
      auto; cbn.
    + discriminate.
    + intros x Hx Ha. apply list_elem_of_filter in Hx as (_ & Hx). auto.
    + intros Hsame Hne. rewrite Hsame in Hlag.
      destruct (Hlag Hne) as (x & Hx & Ha). exists x. split; [|exact Ha].
      apply list_elem_of_filter. split; [|exact Hx].
      destruct (settle_timer_value s x _ Hwf Hx Ha) as (_ & Hh & _).
      destruct (Hfl f eq_refl) as (_ & Hne'). congruence.
  - apply (commit_live _ (current_deps s)); [|exact Hs|..]; auto.
    destruct Htw as (Hnd & Hall & (Hid & Hh & _)).
    split; [exact Hnd|]. split; [exact Hall|]. split; [exact Hid|].
    split; [exact Hh|]. intros f [=].
Qed.

Lemma live_run es : forall s, live s -> live (fst (run s es)).
Proof.
  induction es as [|e es IH]; intros s Hs; [exact Hs|]. cbn [run].
  pose proof (live_step s e Hs) as H1.
  destruct (step s e) as [s1 o1]. cbn [fst] in H1.
  specialize (IH s1 H1). destruct (run s1 es) as [s2 o2]. exact IH.
Qed.

Lemma length_filter_bool (f : Timer -> bool) (l : list Timer) :
  length (List.filter f l) = length (filter (fun x => f x = true) l).
Proof.
  induction l as [|x l IH]; [reflexivity|]. rewrite filter_cons. cbn.
  destruct (f x); case_decide; try done; cbn; by rewrite IH.
Qed.

Lemma length_by_kind (l : list Timer) :
  length l =
  (length (filter (fun x => is_Expire x = true) l)
   + length (filter (fun x => is_Expire x = false) l))%nat.
Proof.
  induction l as [|x l IH]; [reflexivity|]. rewrite !filter_cons. cbn.
  rewrite IH. destruct (is_Expire x); repeat case_decide; try done; cbn; lia.
Qed.

Lemma timer_counts s :
  timers_wf s ->
  (length (filter (fun x => is_Expire x = true) (timers s)) <= 1 /\
   length (filter (fun x => is_Expire x = false) (timers s)) <= 1)%nat.
Proof.
  intros (Hnd & Hall & _). rewrite Forall_forall in Hall. split.
  - apply filter_same_tid_length; [exact Hnd|]. intros x y Hx Hy Ex Ey.
    destruct (Hall x Hx) as (_ & Hax). destruct (Hall y Hy) as (_ & Hay).
    unfold is_Expire in *. destruct (action x); [|done].
    destruct (action y); [|done]. congruence.
  - apply filter_same_tid_length; [exact Hnd|]. intros x y Hx Hy Ex Ey.
    destruct (Hall x Hx) as (_ & Hax). destruct (Hall y Hy) as (_ & Hay).
    unfold is_Expire in *. destruct (action x); [done|].
    destruct (action y); [done|].
    destruct Hax as (Hax & _). destruct Hay as (Hay & _). congruence.
Qed.

(** X14. After any sequence of events from a mount, at most one expiry
    timer is armed and at most two timers in all (the other being the
    pending update of the debounce hook); the armed expiry timer is the
    one whose handle the component holds. *)
Theorem X14_one_timer_of_each_kind (p : Props) (d : Data) (es : list Event) :
  let s := fst (run (fst (mount p d)) es) in
  (length (expiry_timers s) <= 1)%nat /\
  (length (timers s) <= 2)%nat /\
  forall x, x ∈ timers s -> action x = Expire -> tid x = isTypingTimeoutID s.
Proof.
  cbv zeta. pose proof (wf_run _ es (wf_mount p d)) as Hwf.
  destruct (timer_counts _ (proj2 Hwf)) as (He & Hc).
  split; [|split].
  - unfold expiry_timers. by rewrite length_filter_bool.
  - rewrite length_by_kind. lia.
  - intros x Hx Ha. by apply expire_timer_handle.
Qed.

(** X15. After any sequence of events from a mount, a raised typing flag
    always has its expiry timer armed, under the handle the component
    holds and due within five seconds: the flag cannot stay up for
    good. *)
Theorem X15_raised_flag_has_its_timer (p : Props) (d : Data) (es : list Event) :
  let s := fst (run (fst (mount p d)) es) in
  isTyping s = true ->
  armed (isTypingTimeoutID s) s = true /\
  exists x, x ∈ timers s /\ action x = Expire /\
            tid x = isTypingTimeoutID s /\ deadline x <= now s + 5000.
Proof.
  cbv zeta. intros Hty.
  destruct (live_run es _ (live_mount p d)) as (Hwf & Hup & Hbound & _).
  destruct (Hup Hty) as (x & Hx & Ha).
  pose proof (expire_timer_handle _ x Hwf Hx Ha) as Hid.
  split.
  - unfold armed. apply bool_decide_eq_true. apply Exists_exists. by exists x.
  - exists x. repeat split; auto.
Qed.

Lemma live_expiring s : live s -> expiring (now s) s.
Proof.
  intros (Hwf & Hup & Hbound & Hlag). split; [exact Hwf|].
  pose proof Hwf as (_ & _ & Hall & _). rewrite Forall_forall in Hall.
  assert (Hdl : forall x, x ∈ timers s -> deadline x <= now s + 5000).
  { intros x Hx. destruct (action x) as [|b] eqn:Ha; [by apply Hbound|].
    destruct (Hall x Hx) as (_ & Hk). rewrite Ha in Hk.
    destruct Hk as (_ & _ & Hk). lia. }
  split.
  - intros Hty. split; [lia|]. split; [by apply Hup|exact Hdl].
  - intros Hty. split.
    + intros x Hx. specialize (Hdl x Hx). lia.
    + intros Hdeb. rewrite Hty in Hlag. apply Hlag. congruence.
Qed.

(** X16. From the state after any sequence of events from a mount, six
    seconds in which nothing happens but timers firing leave the typing
    flag down, the debounced value false and no timer armed; in that time
    the typing callback is given no [false]. *)
Theorem X16_six_idle_seconds (p : Props) (d : Data) (es : list Event)
    (fuel : nat) :
  (3 <= fuel)%nat ->
  let s := fst (run (fst (mount p d)) es) in
  exists s6 o6,
    advance fuel (now s + 6000) s = Some (s6, o6) /\
    isTyping s6 = false /\ debouncedTyping s6 = false /\ timers s6 = [] /\
    forall b, In (TypingChange b) o6 -> b = true.
Proof.
  intros Hf. cbv zeta.
  pose proof (live_run es _ (live_mount p d)) as Hlive.
  set (s := fst (run (fst (mount p d)) es)) in *.
  pose proof Hlive as (Hwf & _).
  destruct (advance_total (now s + 6000) fuel s (proj1 Hwf)) as [[s6 o6] Ha].
  { pose proof (pending_work_bound s (proj2 Hwf)). lia. }
  exists s6, o6. split; [exact Ha|].
  destruct (advance_invariant (expiring (now s)) (now s + 6000)
              (fun s' tm H Hin _ => expiring_keep (now s) s' tm H Hin)
              fuel s s6 o6 (live_expiring s Hlive) Ha)
    as (s0 & (Hwf0 & Hup & Hdown) & Hnone & ->).
  assert (Hty0 : isTyping s0 = false).
  { destruct (isTyping s0) eqn:E; [|reflexivity].
    destruct (Hup eq_refl) as (_ & (x & Hx & _) & Hdl).
    specialize (Hnone x Hx). specialize (Hdl x Hx). lia. }
  destruct (Hdown Hty0) as (Hdl & Hpend).
  assert (Hnil : timers s0 = []).
  { destruct (timers s0) as [|x l]; [reflexivity|].
    specialize (Hnone x ltac:(left)). specialize (Hdl x ltac:(left)). lia. }
  split; [exact Hty0|]. split; [|split; [exact Hnil|]].
  - cbn. destruct (debouncedTyping s0); [|reflexivity].
    destruct (Hpend eq_refl) as (x & Hx & _). rewrite Hnil in Hx.
    by apply elem_of_nil in Hx.
  - intros b. exact (advance_typing fuel _ _ _ _ b Ha).
Qed.

End LivenessProperties.

Section StaleHandle.
Import ChatWindow.
Import Liveness.
Local Open Scope Z_scope.

(** X17. Text typed while a send is in flight is not touched by the
    acknowledgment: the draft keeps it and the expiry timer armed by that
    keystroke stays armed, because [onSuccess] clears the handle of the
    render in which the form was submitted -- but the typing flag is
    lowered all the same. *)
Theorem X17_typing_during_a_send (s : State) (f : InFlight) (v : JSString) :
  wf s ->
  sendInFlight s = Some f ->
  v <> [] ->
  let s1 := fst (step s (InputChange v)) in
  let s2 := fst (step s1 (SendSettled Ack)) in
  isTyping s1 = true /\
  newMessage s2 = v /\
  isPending s2 = false /\
  isTyping s2 = false /\
  isTypingTimeoutID s2 = nextTimerId s /\
  armed (isTypingTimeoutID s2) s2 = true /\
  mkTimer (nextTimerId s) (now s + 5000) Expire ∈ timers s2.
Proof.
  intros Hwf Hf Hv. cbv zeta.
  pose proof (wf_step s (InputChange v) Hwf) as Hwf1.
  pose proof (keystroke_expire_armed v s Hwf Hv) as Harmed.
  destruct (keystroke_fields v s Hv) as (Hmsg & Hty & Hid & _).
  destruct Hwf as (_ & _ & _ & (_ & _ & Hfl)).
  destruct (Hfl f Hf) as (Hcap & _).
  set (s1 := fst (step s (InputChange v))) in *.
  assert (Hf1 : sendInFlight s1 = Some f).
  { unfold s1. cbn [step]. rewrite commit_sendInFlight.
    unfold handleInputChange. destruct (not_str v); exact Hf. }
  assert (Hm1 : newMessage s1 = v)
    by (unfold s1; cbn [step]; by rewrite commit_newMessage).
  assert (Hi1 : isTypingTimeoutID s1 = nextTimerId s)
    by (unfold s1; cbn [step]; by rewrite commit_isTypingTimeoutID).
  split; [unfold s1; cbn [step]; by rewrite commit_isTyping|].
  pose proof (settle_timers_wf Ack s1 (proj2 Hwf1)) as Htw.
  cbn [step]. rewrite (settle_ack s1 f Hf1) in *.
  unfold onSuccess in *. cbv zeta in *. cbn [fst] in Htw.
  rewrite then_commit_fst. unfold isPending.
  rewrite commit_newMessage, commit_sendInFlight, commit_isTyping,
    commit_isTypingTimeoutID.
  split; [exact Hm1|]. split; [reflexivity|]. split; [reflexivity|].
  split; [exact Hi1|].
  assert (Hin : mkTimer (nextTimerId s) (now s + 5000) Expire
                  ∈ timers (fst (commit
                      (clearTimeout (captured_isTypingTimeoutID f)
                         (setIsTyping false (set_send None None s1)))))).
  { apply commit_keeps_expire; [exact Htw| |reflexivity].
    cbn. apply list_elem_of_filter. split; [cbn; lia|exact Harmed]. }
  split; [|exact Hin].
  unfold armed. apply bool_decide_eq_true. apply Exists_exists.
  eexists. split; [exact Hin|]. exact (eq_sym Hi1).
Qed.

End StaleHandle.

Lemma sent_A_wf : ChatWindow.wf MoreExamples.sent_A.
Proof.
  assert (E : MoreExamples.sent_A = fst (ChatWindow.step typed_A ChatWindow.Submit))
    by (vm_compute; reflexivity).
  rewrite E. apply wf_step, typed_A_wf.
Qed.

Lemma X17_typing_during_a_send_witness :
  ChatWindow.newMessage
    (fst (ChatWindow.step
            (fst (ChatWindow.step MoreExamples.sent_A
                    (ChatWindow.InputChange (lit "again"))))
            (ChatWindow.SendSettled ChatWindow.Ack))) = lit "again" /\
  ChatWindow.isTyping
    (fst (ChatWindow.step
            (fst (ChatWindow.step MoreExamples.sent_A
                    (ChatWindow.InputChange (lit "again"))))
            (ChatWindow.SendSettled ChatWindow.Ack))) = false.
Proof.
  assert (Hv : lit "again" <> []) by discriminate.
  assert (Hf : ChatWindow.sendInFlight MoreExamples.sent_A
               = Some (ChatWindow.mkInFlight (lit "Hello") 2))
    by (vm_compute; reflexivity).
  destruct (X17_typing_during_a_send MoreExamples.sent_A _ (lit "again")
              sent_A_wf Hf Hv)
    as (_ & Hm & _ & Hty & _).
  split; [exact Hm|exact Hty].
Defined.

Lemma X15_raised_flag_has_its_timer_witness :
  ChatWindow.armed
    (ChatWindow.isTypingTimeoutID
       (fst (ChatWindow.run (fst (ChatWindow.mount props_A data_A))
               [ChatWindow.InputChange (lit "Hello")])))
    (fst (ChatWindow.run (fst (ChatWindow.mount props_A data_A))
            [ChatWindow.InputChange (lit "Hello")])) = true.
Proof.
  apply (X15_raised_flag_has_its_timer props_A data_A
           [ChatWindow.InputChange (lit "Hello")]).
  vm_compute. reflexivity.
Defined.

Lemma X16_six_idle_seconds_witness :
  exists s6 o6,
    ChatWindow.advance 3
      (ChatWindow.now
         (fst (ChatWindow.run (fst (ChatWindow.mount props_A data_A))
                 [ChatWindow.InputChange (lit "Hello")])) + 6000)
      (fst (ChatWindow.run (fst (ChatWindow.mount props_A data_A))
              [ChatWindow.InputChange (lit "Hello")])) = Some (s6, o6) /\
    ChatWindow.isTyping s6 = false /\
    ChatWindow.debouncedTyping s6 = false /\
    ChatWindow.timers s6 = [] /\
    forall b, In (ChatWindow.TypingChange b) o6 -> b = true.
Proof.
  apply (X16_six_idle_seconds props_A data_A
           [ChatWindow.InputChange (lit "Hello")] 3). lia.
Defined.

Lemma X8_send_needs_visible_text_witness :
  exists t, In (ChatWindow.OutboundSend t)
              (snd (ChatWindow.step typed_A ChatWindow.Submit)).
Proof.
  apply (X8_send_needs_visible_text typed_A). split; [reflexivity|].
  apply Exists_cons. left. reflexivity.
Defined.
